(** * The catalog accessor of the OWASP agentic security dataset

    A shallow embedding of [src/__init__.py]: the values the accessor
    handles are the Python objects that [json.load] produces, the
    accessor's functions are state-passing functions over the module's
    cache and the operating system's state, and a Python exception is
    the [Raise] outcome of a call.  Text is held in UTF-8; the case maps
    of [str] are the library's, taken with their laws. *)

From Stdlib Require Import String Ascii List Bool ZArith Lia.
Import ListNotations.
Open Scope string_scope.
Open Scope list_scope.
Set Warnings "-register-all".

(** ** Strings *)

Module Str.

(** A string is the text in UTF-8.  On the letters of ASCII,
    [str.upper] and [str.lower] are the two maps below; they leave every
    other byte of ASCII text as it is. *)
Definition upper_ascii (c : ascii) : ascii :=
  let n := nat_of_ascii c in
  if (97 <=? n)%nat && (n <=? 122)%nat then ascii_of_nat (n - 32) else c.

Definition lower_ascii (c : ascii) : ascii :=
  let n := nat_of_ascii c in
  if (65 <=? n)%nat && (n <=? 90)%nat then ascii_of_nat (n + 32) else c.

Fixpoint upper_bytes (s : string) : string :=
  match s with
  | EmptyString => EmptyString
  | String c s' => String (upper_ascii c) (upper_bytes s')
  end.

Fixpoint lower_bytes (s : string) : string :=
  match s with
  | EmptyString => EmptyString
  | String c s' => String (lower_ascii c) (lower_bytes s')
  end.

(** The text is ASCII: every byte is below 128. *)
Fixpoint is_ascii (s : string) : bool :=
  match s with
  | EmptyString => true
  | String c s' => (nat_of_ascii c <? 128)%nat && is_ascii s'
  end.

(** [str.upper] and [str.lower] themselves, over all of Unicode: the
    library's functions, taken with the laws of theirs that the
    accessor relies on.  Each is idempotent, and on ASCII text each is
    the byte map above. *)
Class case_map : Type := {
  upper : string -> string;
  lower : string -> string;
  upper_idem : forall s, upper (upper s) = upper s;
  lower_idem : forall s, lower (lower s) = lower s;
  upper_ascii_text : forall s, is_ascii s = true -> upper s = upper_bytes s;
  lower_ascii_text : forall s, is_ascii s = true -> lower s = lower_bytes s
}.

(** [needle in hay] on two strings: [needle] occurs in [hay]. *)
Fixpoint contains (needle hay : string) : bool :=
  if String.prefix needle hay then true
  else match hay with
       | EmptyString => false
       | String _ hay' => contains needle hay'
       end.

(** [sep.join(l)]. *)
Fixpoint join (sep : string) (l : list string) : string :=
  match l with
  | [] => ""
  | [x] => x
  | x :: l' => (x ++ sep ++ join sep l')%string
  end.

(** [s1 <= s2] on strings: the order of the code points. *)
Definition leb (s1 s2 : string) : bool :=
  match String.compare s1 s2 with
  | Gt => false
  | _ => true
  end.

Fixpoint insert_sorted (x : string) (l : list string) : list string :=
  match l with
  | [] => [x]
  | y :: l' => if leb x y then x :: l else y :: insert_sorted x l'
  end.

(** [sorted(l)] on a list of strings. *)
Definition sorted (l : list string) : list string :=
  fold_right insert_sorted [] l.

(** A byte from 128 to 191 continues the character begun before it. *)
Definition continues (c : ascii) : bool :=
  let n := nat_of_ascii c in (128 <=? n)%nat && (n <? 192)%nat.

(** The characters of a string, each a string of its own: what a [for]
    loop over a string yields. *)
Fixpoint chars (s : string) : list string :=
  match s with
  | EmptyString => []
  | String c s' =>
      match chars s' with
      | x :: rest =>
          if match s' with
             | String d _ => continues d
             | EmptyString => false
             end
          then String c x :: rest
          else String c EmptyString :: x :: rest
      | [] => [String c EmptyString]
      end
  end.

End Str.

(** ** Python values *)

(** What [json.load] returns, and what the provider's generator builds:
    [None], booleans, integers, strings, lists and dictionaries with
    string keys.  A dictionary is the list of its items in insertion
    order.  Floating-point numbers are left out: the accessor never
    looks inside a number. *)
Inductive pyval : Type :=
| PyNone
| PyBool (b : bool)
| PyInt (n : Z)
| PyStr (s : string)
| PyList (l : list pyval)
| PyDict (items : list (string * pyval)).

(** The exceptions a call can end in.  [ValueError] is the class that
    this module raises itself and that [json.load] raises on a number too
    long; [JSONDecodeError] and [UnicodeDecodeError], from reading a
    file, are subclasses of it.  The [OSError]s come from the file
    system, and [ProviderError] stands for whatever the parser module
    raises. *)
Inductive exn : Type :=
| ValueError (msg : string)
| KeyError (key : string)
| TypeError
| AttributeError
| FileNotFoundError
| IsADirectoryError
| NotADirectoryError
| FileExistsError
| PermissionError
| JSONDecodeError
| UnicodeDecodeError
| ProviderError (tag : string).

(** [isinstance(e, ValueError)]. *)
Definition is_ValueError (e : exn) : bool :=
  match e with
  | ValueError _ | JSONDecodeError | UnicodeDecodeError => true
  | _ => false
  end.

Inductive outcome (A : Type) : Type :=
| Return (a : A)
| Raise (e : exn).
Arguments Return {A} a.
Arguments Raise {A} e.

Module Py.

Definition bind {A B} (r : outcome A) (k : A -> outcome B) : outcome B :=
  match r with
  | Return a => k a
  | Raise e => Raise e
  end.

(** [d.get(key)] on the items of a dictionary. *)
Fixpoint lookup (key : string) (items : list (string * pyval)) : option pyval :=
  match items with
  | [] => None
  | (k, v) :: items' => if String.eqb k key then Some v else lookup key items'
  end.

(** [v[key]] with a string key. *)
Definition getitem (v : pyval) (key : string) : outcome pyval :=
  match v with
  | PyDict items =>
      match lookup key items with
      | Some x => Return x
      | None => Raise (KeyError key)
      end
  | _ => Raise TypeError
  end.

(** [v.get(key, default)]: only a dictionary has the method. *)
Definition get (v : pyval) (key : string) (default : pyval) : outcome pyval :=
  match v with
  | PyDict items =>
      match lookup key items with
      | Some x => Return x
      | None => Return default
      end
  | _ => Raise AttributeError
  end.

(** What [for x in v] iterates over. *)
Definition iter (v : pyval) : outcome (list pyval) :=
  match v with
  | PyList l => Return l
  | PyDict items => Return (map (fun kv => PyStr (fst kv)) items)
  | PyStr s => Return (map PyStr (Str.chars s))
  | _ => Raise TypeError
  end.

(** [v == s] for a string [s]: only a string equals a string. *)
Definition eq_str (v : pyval) (s : string) : bool :=
  match v with
  | PyStr t => String.eqb t s
  | _ => false
  end.

(** [v in l] for a list [l] of strings. *)
Definition in_strs (v : pyval) (l : list string) : bool :=
  existsb (eq_str v) l.

(** [s in v] for a string [s] and any container [v]. *)
Definition str_in (s : string) (v : pyval) : outcome bool :=
  match v with
  | PyList l => Return (existsb (fun x => eq_str x s) l)
  | PyDict items => Return (existsb (fun kv => String.eqb (fst kv) s) items)
  | PyStr t => Return (Str.contains s t)
  | _ => Raise TypeError
  end.

(** The keys of a dictionary built at run time can be any hashable
    value.  Lists and dictionaries are not hashable; [True] and [1],
    [False] and [0] are the same key. *)
Definition hashable (v : pyval) : bool :=
  match v with
  | PyList _ | PyDict _ => false
  | _ => true
  end.

Definition key_num (v : pyval) : option Z :=
  match v with
  | PyBool b => Some (if b then 1 else 0)%Z
  | PyInt n => Some n
  | _ => None
  end.

Definition key_eqb (a b : pyval) : bool :=
  match a, b with
  | PyNone, PyNone => true
  | PyStr s, PyStr t => String.eqb s t
  | _, _ => match key_num a, key_num b with
            | Some x, Some y => Z.eqb x y
            | _, _ => false
            end
  end.

(** [d[k] = v]: the value of a key already there is replaced, a new
    key goes to the end. *)
Fixpoint setitem (k v : pyval) (d : list (pyval * pyval)) : list (pyval * pyval) :=
  match d with
  | [] => [(k, v)]
  | (k', v') :: d' =>
      if key_eqb k' k then (k', v) :: d' else (k', v') :: setitem k v d'
  end.

(** [d[key]] on such a dictionary, for a string key. *)
Fixpoint dict_getitem (d : list (pyval * pyval)) (key : string) : outcome pyval :=
  match d with
  | [] => Raise (KeyError key)
  | (k, v) :: d' => if key_eqb k (PyStr key) then Return v else dict_getitem d' key
  end.

End Py.

(** ** Paths and the operating system *)

(** A [pathlib.Path]: whether it starts at the root, and its
    components.  Empty components and [.] are dropped when a path is
    built from a string, as [pathlib] does. *)
Record Path : Type := mkPath { anchored : bool; parts : list string }.

Module Pathlib.

Fixpoint components (s : string) : list string :=
  match s with
  | EmptyString => [""]
  | String c s' =>
      if Ascii.eqb c "/" then "" :: components s'
      else match components s' with
           | [] => [String c ""]
           | x :: r => String c x :: r
           end
  end.

Definition keep (x : string) : bool :=
  negb (String.eqb x "") && negb (String.eqb x ".").

(** [Path(s)]. *)
Definition of_string (s : string) : Path :=
  {| anchored := String.prefix "/" s; parts := filter keep (components s) |}.

(** [p / name]. *)
Definition joinpath (p : Path) (name : string) : Path :=
  let q := of_string name in
  if anchored q then q
  else {| anchored := anchored p; parts := parts p ++ parts q |}.

End Pathlib.

Notation "p // name" := (Pathlib.joinpath p name) (at level 40, left associativity).

(** An argument annotated [Union[str, Path]]. *)
Inductive pathlike : Type :=
| OfStr (s : string)
| OfPath (p : Path).

Definition to_Path (f : pathlike) : Path :=
  match f with
  | OfStr s => Pathlib.of_string s
  | OfPath p => p
  end.

(** A place in the file system is the list of its components from the
    root.  A file is known by what opening it and [json.load] make of
    it: the parsed value, [None] when its content is not JSON, or, for
    [Unreadable], the exception that [open] or [json.load] raises on it
    otherwise (no permission, bytes that are not UTF-8, a number too
    long).  Symbolic links and [..] are not modelled. *)
Definition place : Type := list string.

Inductive node : Type :=
| Dir
| File (parsed : option pyval)
| Unreadable (e : exn).

Record os_state : Type := mkOs {
  cwd : place;
  fs : place -> option node
}.

Definition place_eqb (a b : place) : bool :=
  if list_eq_dec string_dec a b then true else false.

(** [b] starts with [a]. *)
Fixpoint is_prefix (a b : place) : bool :=
  match a, b with
  | [], _ => true
  | x :: a', y :: b' => String.eqb x y && is_prefix a' b'
  | _ :: _, [] => false
  end.

Module Os.

(** Where a path leads from the working directory. *)
Definition locate (s : os_state) (p : Path) : place :=
  if anchored p then parts p else cwd s ++ parts p.

Definition is_dir (s : os_state) (a : place) : bool :=
  match fs s a with
  | Some Dir => true
  | _ => false
  end.

(** Some proper ancestor of [a] is a file. *)
Definition blocked (s : os_state) (a : place) : bool :=
  existsb (fun n => match fs s (firstn n a) with
                    | Some (File _) | Some (Unreadable _) => true
                    | _ => false
                    end)
          (seq 0 (length a)).

(** [p.exists()]: nothing exists below a file. *)
Definition exists_ (p : Path) (s : os_state) : bool :=
  if blocked s (locate s p) then false
  else match fs s (locate s p) with
       | Some _ => true
       | None => false
       end.

(** [open(p, "r")] followed by [json.load]. *)
Definition read_json (p : Path) (s : os_state) : outcome pyval :=
  if blocked s (locate s p) then Raise NotADirectoryError
  else match fs s (locate s p) with
       | None => Raise FileNotFoundError
       | Some Dir => Raise IsADirectoryError
       | Some (File None) => Raise JSONDecodeError
       | Some (File (Some v)) => Return v
       | Some (Unreadable e) => Raise e
       end.

(** [os.getcwd()]. *)
Definition getcwd (s : os_state) : Path :=
  {| anchored := true; parts := cwd s |}.

(** [os.chdir(p)]. *)
Definition chdir (p : Path) (s : os_state) : outcome unit * os_state :=
  let target := locate s p in
  match fs s target with
  | Some Dir => (Return tt, {| cwd := target; fs := fs s |})
  | Some (File _) | Some (Unreadable _) => (Raise NotADirectoryError, s)
  | None => (Raise FileNotFoundError, s)
  end.

(** [p.mkdir(parents=True, exist_ok=True)]: the directory and the
    ancestors it lacks are created; a file in the way is an error. *)
Definition mkdir_p (p : Path) (s : os_state) : outcome unit * os_state :=
  let target := locate s p in
  match fs s target with
  | Some Dir => (Return tt, s)
  | Some (File _) | Some (Unreadable _) => (Raise FileExistsError, s)
  | None =>
      if blocked s target then (Raise NotADirectoryError, s)
      else (Return tt,
            {| cwd := cwd s;
               fs := fun a => match fs s a with
                              | Some n => Some n
                              | None => if is_prefix a target then Some Dir else None
                              end |})
  end.

End Os.

(** ** The state of the process *)

(** The work of the load path, as a test double would count it. *)
Inductive event : Type :=
| Opened (at_ : place)
| Generated
| Ran.

(** The module's state and its surroundings: the global
    [_dataset_cache] ([None] while nothing is cached), the list objects
    that [ASI_IDS] and its copies name, the operating system, and the
    record of the load-path work done so far, latest first. *)
Record world : Type := mkWorld {
  dataset_cache : pyval;
  objects : list (list string);
  os : os_state;
  io_log : list event
}.

Definition set_cache (d : pyval) (w : world) : world :=
  {| dataset_cache := d; objects := objects w; os := os w; io_log := io_log w |}.

Definition set_objects (o : list (list string)) (w : world) : world :=
  {| dataset_cache := dataset_cache w; objects := o; os := os w; io_log := io_log w |}.

Definition set_os (s : os_state) (w : world) : world :=
  {| dataset_cache := dataset_cache w; objects := objects w; os := s; io_log := io_log w |}.

Definition log (e : event) (w : world) : world :=
  {| dataset_cache := dataset_cache w; objects := objects w; os := os w;
     io_log := e :: io_log w |}.

(** A call: from a state to an outcome and the state it leaves. *)
Definition M (A : Type) : Type := world -> outcome A * world.

Definition ret {A} (a : A) : M A := fun w => (Return a, w).

Definition raise {A} (e : exn) : M A := fun w => (Raise e, w).

Definition bindM {A B} (m : M A) (k : A -> M B) : M B :=
  fun w => match m w with
           | (Return a, w') => k a w'
           | (Raise e, w') => (Raise e, w')
           end.

Definition lift {A} (r : outcome A) : M A := fun w => (r, w).

(** [try: body finally: final]. *)
Definition try_finally {A} (body : M A) (final : M unit) : M A :=
  fun w => match body w with
           | (r, w1) =>
               match final w1 with
               | (Return _, w2) => (r, w2)
               | (Raise e, w2) => (Raise e, w2)
               end
           end.

Declare Scope py_scope.
Delimit Scope py_scope with py.
Notation "x <- m ;; k" := (bindM m (fun x => k))
  (at level 61, m at next level, right associativity) : py_scope.
Notation "m ;;; k" := (bindM m (fun _ => k))
  (at level 61, right associativity) : py_scope.
Open Scope py_scope.

(** The operating system's calls, as calls of the process. *)
Definition os_call {A} (f : os_state -> outcome A * os_state) : M A :=
  fun w => match f (os w) with
           | (r, s) => (r, set_os s w)
           end.

Definition path_exists (p : Path) : M bool :=
  fun w => (Return (Os.exists_ p (os w)), w).

Definition open_json (p : Path) : M pyval :=
  fun w => (Os.read_json p (os w), log (Opened (Os.locate (os w) p)) w).

Definition getcwd : M Path :=
  fun w => (Return (Os.getcwd (os w)), w).

Definition chdir (p : Path) : M unit := os_call (Os.chdir p).

Definition mkdir_p (p : Path) : M unit := os_call (Os.mkdir_p p).

(** ** Constants *)

Definition ASI_IDS : list string :=
  ["ASI01"; "ASI02"; "ASI03"; "ASI04"; "ASI05";
   "ASI06"; "ASI07"; "ASI08"; "ASI09"; "ASI10"].

Definition COMPONENT_THREAT_MAP : list (string * list string) :=
  [ ("llm_agent", ["ASI01"; "ASI05"; "ASI06"; "ASI10"]);
    ("tool_integration", ["ASI02"; "ASI04"]);
    ("multi_agent", ["ASI07"; "ASI08"]);
    ("user_interface", ["ASI09"]);
    ("identity_system", ["ASI03"]);
    ("memory_store", ["ASI06"]);
    ("code_executor", ["ASI05"]);
    ("orchestrator", ["ASI01"; "ASI08"; "ASI10"]);
    ("external_api", ["ASI02"; "ASI04"]);
    ("communication_layer", ["ASI07"]);
    ("supply_chain", ["ASI04"]);
    ("rag_system", ["ASI01"; "ASI06"]) ].

(** [COMPONENT_THREAT_MAP.get(key)]. *)
Fixpoint component_lookup (key : string) (m : list (string * list string))
  : option (list string) :=
  match m with
  | [] => None
  | (k, v) :: m' => if String.eqb k key then Some v else component_lookup key m'
  end.

(** The object that the name [ASI_IDS] is bound to. *)
Definition ASI_IDS_ref : nat := 0.

(** The state when the module has just been imported. *)
Definition initial_world (s : os_state) : world :=
  {| dataset_cache := PyNone; objects := [ASI_IDS]; os := s; io_log := [] |}.

(** ** The accessor *)

Section Accessor.

(** [str.upper] and [str.lower]. *)
Context {cm : Str.case_map}.

(** The directory two levels above the module's own file,
    [Path(__file__).parent.parent]. *)
Variable package_root : Path.

(** The parser module, the accessor's collaborator: importing it and
    calling [create_owasp_agentic_top10()], and importing it and
    calling [main()].  Either acts on the operating system only, and
    either can fail; what it raises is kept apart from the exceptions of
    the accessor itself, under a tag. *)
Variable parser_create : os_state -> (string + pyval) * os_state.
Variable parser_main : os_state -> (string + unit) * os_state.

Definition from_parser {A} (r : string + A) : outcome A :=
  match r with
  | inl tag => Raise (ProviderError tag)
  | inr a => Return a
  end.

Definition _get_data_path : Path := package_root // "data".

Definition create_owasp_agentic_top10 : M pyval :=
  fun w => match parser_create (os w) with
           | (r, s) => (from_parser r, log Generated (set_os s w))
           end.

Definition run_parser_main : M unit :=
  fun w => match parser_main (os w) with
           | (r, s) => (from_parser r, log Ran (set_os s w))
           end.

Definition is_none (v : pyval) : bool :=
  match v with
  | PyNone => true
  | _ => false
  end.

Definition read_cache : M pyval := fun w => (Return (dataset_cache w), w).

Definition write_cache (d : pyval) : M unit := fun w => (Return tt, set_cache d w).

Definition load_dataset (filepath : option pathlike) (use_cache : bool) : M pyval :=
  cached <- read_cache ;;
  if use_cache && negb (is_none cached) then ret cached
  else
    let path := match filepath with
                | Some f => to_Path f
                | None => _get_data_path // "owasp_agentic_top10_full.json"
                end in
    present <- path_exists path ;;
    data <- (if present then open_json path else create_owasp_agentic_top10) ;;
    (if use_cache then write_cache data else ret tt) ;;;
    ret data.

Definition load_entries (filepath : option pathlike) : M pyval :=
  match filepath with
  | Some f =>
      let path := to_Path f in
      data <- open_json path ;;
      lift (Py.get data "entries" data)
  | None =>
      data <- load_dataset None true ;;
      lift (Py.getitem data "entries")
  end.

(** The loop of [get_entry]. *)
Fixpoint find_entry (asi_id : string) (entries : list pyval) : outcome pyval :=
  match entries with
  | [] => Return PyNone
  | entry :: rest =>
      Py.bind (Py.getitem entry "id")
              (fun i => if Py.eq_str i asi_id then Return entry
                        else find_entry asi_id rest)
  end.

Definition get_entry (asi_id : string) : M pyval :=
  let asi_id := Str.upper asi_id in
  entries <- load_entries None ;;
  lift (Py.bind (Py.iter entries) (find_entry asi_id)).

(** [list.copy()]: a new object with the elements of [r]. *)
Definition list_copy (r : nat) : M nat :=
  fun w => (Return (length (objects w)),
            set_objects (objects w ++ [nth r (objects w) []]) w).

Definition list_entry_ids : M nat := list_copy ASI_IDS_ref.

(** The comprehension of [get_threats_for_component]. *)
Fixpoint filter_by_id (relevant_ids : list string) (entries : list pyval)
  : outcome (list pyval) :=
  match entries with
  | [] => Return []
  | entry :: rest =>
      Py.bind (Py.getitem entry "id")
              (fun i => Py.bind (filter_by_id relevant_ids rest)
                          (fun rest' => Return (if Py.in_strs i relevant_ids
                                                then entry :: rest' else rest')))
  end.

Definition unknown_component (component_type : string) : string :=
  let valid_types := Str.join ", " (Str.sorted (map fst COMPONENT_THREAT_MAP)) in
  ("Unknown component type: '" ++ component_type ++ "'. "
   ++ "Valid types: " ++ valid_types)%string.

Definition get_threats_for_component (component_type : string) (data : pyval)
  : M (list pyval) :=
  let component_type := Str.lower component_type in
  match component_lookup component_type COMPONENT_THREAT_MAP with
  | None => raise (ValueError (unknown_component component_type))
  | Some relevant_ids =>
      data <- (if is_none data then load_dataset None true else ret data) ;;
      entries <- lift (Py.getitem data "entries") ;;
      lift (Py.bind (Py.iter entries) (filter_by_id relevant_ids))
  end.

Definition entry_not_found (asi_id : string) : exn :=
  ValueError ("Entry not found: " ++ asi_id)%string.

Definition get_mitigations (asi_id : string) : M pyval :=
  entry <- get_entry asi_id ;;
  if is_none entry then raise (entry_not_found asi_id)
  else lift (Py.getitem entry "mitigations").

Definition get_attack_scenarios (asi_id : string) : M pyval :=
  entry <- get_entry asi_id ;;
  if is_none entry then raise (entry_not_found asi_id)
  else lift (Py.getitem entry "attack_scenarios").

Definition get_related_llm_entries (asi_id : string) : M pyval :=
  entry <- get_entry asi_id ;;
  if is_none entry then raise (entry_not_found asi_id)
  else lift (Py.getitem entry "related_llm_entries").

(** The comprehension of [get_asi_to_llm_mapping]: key, then value,
    then the store into the dictionary under construction. *)
Fixpoint build_mapping (entries : list pyval) (acc : list (pyval * pyval))
  : outcome (list (pyval * pyval)) :=
  match entries with
  | [] => Return acc
  | entry :: rest =>
      Py.bind (Py.getitem entry "id")
        (fun k => Py.bind (Py.getitem entry "related_llm_entries")
           (fun v => if Py.hashable k then build_mapping rest (Py.setitem k v acc)
                     else Raise TypeError))
  end.

Definition get_asi_to_llm_mapping : M (list (pyval * pyval)) :=
  entries <- load_entries None ;;
  lift (Py.bind (Py.iter entries) (fun l => build_mapping l [])).

Definition get_incidents : M pyval :=
  data <- load_dataset None true ;;
  tracker <- lift (Py.getitem data "exploits_tracker") ;;
  lift (Py.getitem tracker "incidents").

(** The comprehension of [get_incidents_by_asi]. *)
Fixpoint filter_incidents (asi_id : string) (incidents : list pyval)
  : outcome (list pyval) :=
  match incidents with
  | [] => Return []
  | incident :: rest =>
      Py.bind (Py.get incident "related_asi" (PyList []))
        (fun related => Py.bind (Py.str_in asi_id related)
           (fun hit => Py.bind (filter_incidents asi_id rest)
              (fun rest' => Return (if hit then incident :: rest' else rest'))))
  end.

Definition get_incidents_by_asi (asi_id : string) : M (list pyval) :=
  let asi_id := Str.upper asi_id in
  incidents <- get_incidents ;;
  lift (Py.bind (Py.iter incidents) (filter_incidents asi_id)).

Definition output_files (output_path : Path) : list (string * Path) :=
  [ ("full_json", output_path // "owasp_agentic_top10_full.json");
    ("full_yaml", output_path // "owasp_agentic_top10_full.yaml");
    ("entries_json", output_path // "owasp_agentic_top10_entries.json");
    ("entries_yaml", output_path // "owasp_agentic_top10_entries.yaml");
    ("mappings_json", output_path // "owasp_agentic_top10_mappings.json");
    ("mappings_yaml", output_path // "owasp_agentic_top10_mappings.yaml");
    ("simplified_json", output_path // "owasp_agentic_top10_simplified.json");
    ("simplified_yaml", output_path // "owasp_agentic_top10_simplified.yaml") ].

Definition generate_all_formats (output_dir : pathlike) : M (list (string * Path)) :=
  let output_path := to_Path output_dir in
  mkdir_p output_path ;;;
  original_dir <- getcwd ;;
  chdir output_path ;;;
  try_finally run_parser_main (chdir original_dir) ;;;
  ret (output_files output_path).

Definition clear_cache : M unit := write_cache PyNone.

(** [v.lower()]: only a string has the method. *)
Definition str_lower (v : pyval) : outcome string :=
  match v with
  | PyStr s => Return (Str.lower s)
  | _ => Raise AttributeError
  end.

(** The loop of [get_entry_by_title]. *)
Fixpoint find_by_title (title_lower : string) (entries : list pyval) : outcome pyval :=
  match entries with
  | [] => Return PyNone
  | entry :: rest =>
      Py.bind (Py.getitem entry "title")
        (fun t => Py.bind (str_lower t)
           (fun tl => if Str.contains title_lower tl then Return entry
                      else find_by_title title_lower rest))
  end.

Definition get_entry_by_title (title : string) : M pyval :=
  let title_lower := Str.lower title in
  entries <- load_entries None ;;
  lift (Py.bind (Py.iter entries) (find_by_title title_lower)).

(** The comprehension of [list_entry_titles]. *)
Fixpoint build_titles (entries : list pyval) (acc : list (pyval * pyval))
  : outcome (list (pyval * pyval)) :=
  match entries with
  | [] => Return acc
  | entry :: rest =>
      Py.bind (Py.getitem entry "id")
        (fun k => Py.bind (Py.getitem entry "title")
           (fun v => if Py.hashable k then build_titles rest (Py.setitem k v acc)
                     else Raise TypeError))
  end.

Definition list_entry_titles : M (list (pyval * pyval)) :=
  entries <- load_entries None ;;
  lift (Py.bind (Py.iter entries) (fun l => build_titles l [])).

Definition load_mappings (filepath : option pathlike) : M pyval :=
  match filepath with
  | Some f =>
      let path := to_Path f in
      open_json path
  | None =>
      data <- load_dataset None true ;;
      asi_llm <- lift (Py.getitem data "mappings") ;;
      nhi <- lift (Py.getitem data "nhi_mappings") ;;
      ret (PyDict [("asi_llm_mappings", asi_llm); ("nhi_mappings", nhi)])
  end.

Definition get_nhi_mappings : M pyval :=
  data <- load_dataset None true ;;
  nhi <- lift (Py.getitem data "nhi_mappings") ;;
  lift (Py.getitem nhi "mappings").

End Accessor.

(** ** The vocabulary of the properties *)

Section Vocabulary.

Context {cm : Str.case_map}.

(** The entry carries the id [id]. *)
Definition has_id (id : string) (e : pyval) : Prop :=
  Py.getitem e "id" = Return (PyStr id).

(** The entry carries an id, and it is not [id]. *)
Definition other_id (id : string) (e : pyval) : Prop :=
  exists v, Py.getitem e "id" = Return v /\ Py.eq_str v id = false.

(** The entry carries an id. *)
Definition with_id (e : pyval) : Prop :=
  exists v, Py.getitem e "id" = Return v.

(** The call fails with a [ValueError], of the class itself or of a
    subclass. *)
Definition fails_with_ValueError {A} (r : outcome A) : Prop :=
  exists e, r = Raise e /\ is_ValueError e = true.

(** The contract of an accessor [get] that needs its entry to exist and
    returns the entry's [field]: when [get_entry] finds nothing it
    raises the not-found error, otherwise it reads the field of the
    entry found; and when the dataset [loads], it fails with a
    [ValueError] exactly when [get_entry] finds nothing. *)
Definition requires_entry (loads : Prop) (lookup : string -> M pyval)
  (get : string -> M pyval) (field : string) (s : string) (w : world) : Prop :=
  (fst (lookup s w) = Return PyNone ->
   get s w = (Raise (entry_not_found s), snd (lookup s w))) /\
  (forall e, fst (lookup s w) = Return e -> e <> PyNone ->
             get s w = (Py.getitem e field, snd (lookup s w))) /\
  (loads ->
   (fails_with_ValueError (fst (get s w)) <-> fst (lookup s w) = Return PyNone)).

(** The dataset loads, and has something for its entries. *)
Definition dataset_loads (root : Path)
  (create : os_state -> (string + pyval) * os_state) (w : world) : Prop :=
  exists es w', load_entries root create None w = (Return es, w').

(** The file named [base] in the directory [p]. *)
Definition under (p : Path) (base : string) : Path :=
  {| anchored := anchored p; parts := parts p ++ [base] |}.

(** Whether the entry's id is one of [ids]. *)
Definition id_among (ids : list string) (e : pyval) : bool :=
  match Py.getitem e "id" with
  | Return v => Py.in_strs v ids
  | Raise _ => false
  end.

(** The ids of a list of entries, as [e["id"]] gives them. *)
Definition ids_of (es : list pyval) : list (outcome pyval) :=
  map (fun e => Py.getitem e "id") es.

(** The ids of a list of entries are the strings [ids], in that order. *)
Definition carries (es : list pyval) (ids : list string) : Prop :=
  ids_of es = map (fun i => Return (PyStr i)) ids.

(** The text [k] is part of the text [msg]. *)
Definition occurs_in (k msg : string) : Prop :=
  exists pre post, msg = (pre ++ k ++ post)%string.

(** The dataset that [get_threats_for_component] works on: the one
    given, or the one that [load_dataset()] returns. *)
Definition dataset_used (root : Path)
  (create : os_state -> (string + pyval) * os_state) (data : pyval) : M pyval :=
  if is_none data then load_dataset root create None true else ret data.

(** An entry as the data model has it, as far as the mapping needs it:
    a string id and the related entries. *)
Definition is_entry (e : pyval) : Prop :=
  exists i v, Py.getitem e "id" = Return (PyStr i) /\
              Py.getitem e "related_llm_entries" = Return v.

(** [get_asi_to_llm_mapping()[id]]. *)
Definition mapping_at (root : Path)
  (create : os_state -> (string + pyval) * os_state) (id : string) : M pyval :=
  mapping <- get_asi_to_llm_mapping root create ;;
  lift (Py.dict_getitem mapping id).

(** The bulk mapping and the accessor agree on [id]. *)
Definition round_trip (root : Path)
  (create : os_state -> (string + pyval) * os_state) (id : string) (w : world) : Prop :=
  mapping_at root create id w = get_related_llm_entries root create id w.

(** The incident is linked to [id]: [id] is among its related ids. *)
Definition linked (id : string) (incident : pyval) : bool :=
  match Py.get incident "related_asi" (PyList []) with
  | Return (PyList l) => existsb (fun x => Py.eq_str x id) l
  | _ => false
  end.

(** An incident record: a dictionary whose related ids, when it has
    the field, are a list. *)
Definition is_incident (incident : pyval) : Prop :=
  exists l, Py.get incident "related_asi" (PyList []) = Return (PyList l).

(** The file that [load_dataset] looks for. *)
Definition dataset_path (root : Path) (filepath : option pathlike) : Path :=
  match filepath with
  | Some f => to_Path f
  | None => _get_data_path root // "owasp_agentic_top10_full.json"
  end.

(** What the load path of [load_dataset] yields on a machine: the parsed
    file when there is one, the provider's dataset otherwise. *)
Definition load_path_result (root : Path)
  (create : os_state -> (string + pyval) * os_state)
  (filepath : option pathlike) (s : os_state) : outcome pyval :=
  if Os.exists_ (dataset_path root filepath) s
  then Os.read_json (dataset_path root filepath) s
  else from_parser (fst (create s)).

(** The work that the load path does there. *)
Definition load_path_event (root : Path) (filepath : option pathlike) (s : os_state)
  : event :=
  if Os.exists_ (dataset_path root filepath) s
  then Opened (Os.locate s (dataset_path root filepath))
  else Generated.

(** The provider's [main] removes no directory. *)
Definition keeps_directories (main : os_state -> (string + unit) * os_state) : Prop :=
  forall s a, Os.is_dir s a = true -> Os.is_dir (snd (main s)) a = true.

(** The elements of the list object [r]. *)
Definition deref (r : nat) (w : world) : list string := nth r (objects w) [].

Fixpoint set_nth {A} (n : nat) (x : A) (l : list A) {struct l} : list A :=
  match l with
  | [] => []
  | y :: l' =>
      match n with
      | O => x :: l'
      | S n' => y :: set_nth n' x l'
      end
  end.

(** A caller changes the list object [r] in place: [append], [clear],
    [sort], an item assignment, any method that turns its elements into
    [f] of them. *)
Definition mutate (r : nat) (f : list string -> list string) : M unit :=
  fun w => (Return tt, set_objects (set_nth r (f (deref r w)) (objects w)) w).

(** What a caller of the module can do between two calls of
    [list_entry_ids]: call it, change a list it has been given, load a
    dataset, clear the cache. *)
Inductive client_step (root : Path)
  (create : os_state -> (string + pyval) * os_state) : world -> world -> Prop :=
| step_list_ids (w : world) :
    client_step root create w (snd (list_entry_ids w))
| step_mutate (w : world) (r : nat) (f : list string -> list string) :
    r <> ASI_IDS_ref ->
    client_step root create w (snd (mutate r f w))
| step_load (w : world) (fp : option pathlike) (uc : bool) :
    client_step root create w (snd (load_dataset root create fp uc w))
| step_clear (w : world) :
    client_step root create w (snd (clear_cache w)).

(** The states a process can be in, from the import of the module on. *)
Inductive reachable (root : Path)
  (create : os_state -> (string + pyval) * os_state) : world -> Prop :=
| reach_import (s : os_state) : reachable root create (initial_world s)
| reach_step (w w' : world) :
    reachable root create w -> client_step root create w w' ->
    reachable root create w'.

(** The entry's title is a string that holds the lower-case text [q],
    whatever the case of the title's letters. *)
Definition title_hits (q : string) (e : pyval) : Prop :=
  exists t, Py.getitem e "title" = Return (PyStr t) /\
            Str.contains q (Str.lower t) = true.

(** The entry's title is a string that does not hold [q]. *)
Definition title_misses (q : string) (e : pyval) : Prop :=
  exists t, Py.getitem e "title" = Return (PyStr t) /\
            Str.contains q (Str.lower t) = false.

(** The entry has a string id and the field [field]. *)
Definition has_field (field : string) (e : pyval) : Prop :=
  exists i v, Py.getitem e "id" = Return (PyStr i) /\
              Py.getitem e field = Return v.

(** The two dictionary comprehensions of the accessor, over the field
    they collect. *)
Fixpoint build_by (field : string) (entries : list pyval) (acc : list (pyval * pyval))
  : outcome (list (pyval * pyval)) :=
  match entries with
  | [] => Return acc
  | entry :: rest =>
      Py.bind (Py.getitem entry "id")
        (fun k => Py.bind (Py.getitem entry field)
           (fun v => if Py.hashable k then build_by field rest (Py.setitem k v acc)
                     else Raise TypeError))
  end.

(** [list_entry_titles()[id]]. *)
Definition title_at (root : Path)
  (create : os_state -> (string + pyval) * os_state) (id : string) : M pyval :=
  titles <- list_entry_titles root create ;;
  lift (Py.dict_getitem titles id).

(** [get_entry(id)["title"]]. *)
Definition title_of_entry (root : Path)
  (create : os_state -> (string + pyval) * os_state) (id : string) : M pyval :=
  entry <- get_entry root create id ;;
  lift (Py.getitem entry "title").

(** [load_mappings()["nhi_mappings"]["mappings"]]. *)
Definition nhi_of_mappings (root : Path)
  (create : os_state -> (string + pyval) * os_state) : M pyval :=
  mappings <- load_mappings root create None ;;
  nhi <- lift (Py.getitem mappings "nhi_mappings") ;;
  lift (Py.getitem nhi "mappings").

(** An incident that [get_incidents_by_asi] can examine: a dictionary
    whose related ids, when it has the field, are a list, a string or a
    dictionary. *)
Definition queryable (incident : pyval) : bool :=
  match incident with
  | PyDict items =>
      match Py.lookup "related_asi" items with
      | None => true
      | Some (PyList _) | Some (PyStr _) | Some (PyDict _) => true
      | Some _ => false
      end
  | _ => false
  end.

(** Every element of [l] is an element of [m]. *)
Definition subset_of (l m : list string) : Prop := forall x, In x l -> In x m.

(** A call that, once a dataset is cached, leaves the state of the
    process as it finds it. *)
Definition read_only {A} (m : M A) : Prop :=
  forall w, dataset_cache w <> PyNone -> snd (m w) = w.

(** Whether [get_incidents_by_asi] selects the incident for [id], when
    it can examine it. *)
Definition selected (id : string) (incident : pyval) : bool :=
  match Py.get incident "related_asi" (PyList []) with
  | Return (PyList l) => existsb (fun x => Py.eq_str x id) l
  | Return (PyStr t) => Str.contains id t
  | Return (PyDict items) => existsb (fun kv => String.eqb (fst kv) id) items
  | _ => false
  end.

End Vocabulary.

(** ** A dataset of the documented shape, for running the accessor *)

Module Fixture.

Definition strs (l : list string) : pyval := PyList (map PyStr l).

Definition entry (id title : string) (related : list string) : pyval :=
  PyDict [ ("id", PyStr id);
           ("title", PyStr title);
           ("mitigations", strs ["Validate inputs"; "Limit privileges"]);
           ("attack_scenarios",
            PyList [PyDict [("name", PyStr "Scenario");
                            ("description", PyStr ("An attack on " ++ title)%string)]]);
           ("related_llm_entries", strs related) ].

Definition entries : list pyval :=
  [ entry "ASI01" "Agent Goal Hijack"
      ["LLM01:2025 Prompt Injection"; "LLM06:2025 Excessive Agency"];
    entry "ASI02" "Tool Misuse & Exploitation" ["LLM06:2025 Excessive Agency"];
    entry "ASI03" "Identity & Privilege Abuse" [];
    entry "ASI04" "Agentic Supply Chain Vulnerabilities" ["LLM03:2025 Supply Chain"];
    entry "ASI05" "Unexpected Code Execution (RCE)" [];
    entry "ASI06" "Memory & Context Poisoning" ["LLM04:2025 Data and Model Poisoning"];
    entry "ASI07" "Insecure Inter-Agent Communication" [];
    entry "ASI08" "Cascading Failures" [];
    entry "ASI09" "Human-Agent Trust Exploitation" [];
    entry "ASI10" "Rogue Agents" [] ].

Definition incident (name : string) (related : list string) : pyval :=
  PyDict [ ("name", PyStr name); ("related_asi", strs related) ].

Definition incidents : list pyval :=
  [ incident "EchoLeak" ["ASI01"; "ASI06"];
    incident "Second" ["ASI02"];
    PyDict [("name", PyStr "Unlinked")];
    incident "Fourth" ["ASI06"; "ASI10"] ].

Definition dataset_of (es : list pyval) : pyval :=
  PyDict [ ("metadata", PyDict [("version", PyStr "2026")]);
           ("entries", PyList es);
           ("exploits_tracker", PyDict [("incidents", PyList incidents)]) ].

Definition dataset : pyval := dataset_of entries.

Definition root : Path := {| anchored := true; parts := ["srv"; "pkg"] |}.

(** A machine with a few directories and the given files. *)
Definition disk (files : list (place * option pyval)) : os_state :=
  {| cwd := ["home"];
     fs := fun a =>
             match find (fun f => place_eqb (fst f) a) files with
             | Some f => Some (File (snd f))
             | None => if existsb (place_eqb a) [[]; ["home"]; ["srv"]; ["srv"; "pkg"]]
                       then Some Dir else None
             end |}.

(** A provider that builds [d], and one that fails. *)
Definition creating (d : pyval) (s : os_state) : (string + pyval) * os_state :=
  (inr d, s).

Definition failing_create (s : os_state) : (string + pyval) * os_state :=
  (inl "ImportError", s).

(** A provider whose [main] writes nothing, and one whose [main] raises. *)
Definition idle_main (s : os_state) : (string + unit) * os_state := (inr tt, s).

Definition faulting_main (s : os_state) : (string + unit) * os_state :=
  (inl "RuntimeError", s).

(** The imported module on a machine without data files. *)
Definition fresh : world := initial_world (disk []).

(** The state once the provider's dataset has been loaded and cached. *)
Definition loaded : world :=
  snd (load_dataset root (creating dataset) None true fresh).

(** Two entries under one id, with different related entries. *)
Definition duplicated : list pyval :=
  [ entry "ASI01" "Agent Goal Hijack" ["LLM01:2025 Prompt Injection"];
    entry "ASI01" "Agent Goal Hijack" ["LLM06:2025 Excessive Agency"] ].

(** The dataset with the two mapping tables beside the entries. *)
Definition nhi_table : pyval :=
  PyDict [ ("description", PyStr "NHI Top 10");
           ("mappings", PyList [PyDict [("nhi", PyStr "NHI1"); ("asi", strs ["ASI03"])]]) ].

Definition full_dataset : pyval :=
  PyDict [ ("metadata", PyDict [("version", PyStr "2026")]);
           ("entries", PyList entries);
           ("mappings", PyDict [("ASI01", strs ["LLM01:2025 Prompt Injection"])]);
           ("nhi_mappings", nhi_table);
           ("exploits_tracker", PyDict [("incidents", PyList incidents)]) ].

(** The state once [full_dataset] has been loaded and cached. *)
Definition loaded_full : world :=
  snd (load_dataset root (creating full_dataset) None true fresh).

(** The byte maps as case maps: [str.upper] and [str.lower] on ASCII
    text, which is all that the documented dataset holds. *)
Definition ascii_case : Str.case_map.
Proof.
  refine {| Str.upper := Str.upper_bytes; Str.lower := Str.lower_bytes |}.
  - induction s as [|c s IH]; simpl; [reflexivity|].
    rewrite IH; f_equal.
    destruct c as [[] [] [] [] [] [] [] []]; reflexivity.
  - induction s as [|c s IH]; simpl; [reflexivity|].
    rewrite IH; f_equal.
    destruct c as [[] [] [] [] [] [] [] []]; reflexivity.
  - reflexivity.
  - reflexivity.
Defined.

(** A machine whose dataset file holds a number of 5000 digits, on
    which [json.load] raises [ValueError]. *)
Definition overlong_disk : os_state :=
  {| cwd := ["home"];
     fs := fun a =>
             if place_eqb a ["srv"; "pkg"; "data"; "owasp_agentic_top10_full.json"]
             then Some (Unreadable (ValueError
               "Exceeds the limit (4300 digits) for integer string conversion: value has 5000 digits; use sys.set_int_max_str_digits() to increase the limit"))
             else if existsb (place_eqb a)
                       [[]; ["home"]; ["srv"]; ["srv"; "pkg"]; ["srv"; "pkg"; "data"]]
                  then Some Dir else None |}.

(** A machine where the place of the output directory is taken by a file. *)
Definition blocked_disk : os_state := disk [(["home"; "output"], None)].

(** A provider whose [main] removes every directory. *)
Definition wiping_main (s : os_state) : (string + unit) * os_state :=
  (inl "RuntimeError", {| cwd := cwd s; fs := fun _ => None |}).

End Fixture.

(** ** Strings *)

Section CaseLaws.

Context {cm : Str.case_map}.

Lemma upper_idempotent (s : string) : Str.upper (Str.upper s) = Str.upper s.
Proof. apply Str.upper_idem. Qed.

Lemma lower_idempotent (s : string) : Str.lower (Str.lower s) = Str.lower s.
Proof. apply Str.lower_idem. Qed.

Lemma upper_canonical (id : string) : In id ASI_IDS -> Str.upper id = id.
Proof.
  unfold ASI_IDS; simpl.
  intros H;
    repeat (destruct H as [<- | H];
            [now rewrite Str.upper_ascii_text by reflexivity|]);
    contradiction.
Qed.

End CaseLaws.

Lemma eq_str_true (v : pyval) (s : string) : Py.eq_str v s = true <-> v = PyStr s.
Proof.
  destruct v; simpl; split; intros H; try discriminate.
  - apply String.eqb_eq in H; now subst.
  - inversion H; apply String.eqb_refl.
Qed.

(** ** Running a call *)

Lemma bindM_return {A B} (m : M A) (k : A -> M B) (w w' : world) (a : A) :
  m w = (Return a, w') -> bindM m k w = k a w'.
Proof. unfold bindM; now intros ->. Qed.

(** ** [get_entry] *)

Lemma find_entry_first (id : string) (pre post : list pyval) (e : pyval) :
  Forall (other_id id) pre -> has_id id e ->
  find_entry id (pre ++ e :: post) = Return e.
Proof.
  intros Hpre He; induction Hpre as [|x pre [v [Hv Hne]] _ IH]; simpl.
  - unfold has_id in He; rewrite He; simpl.
    now rewrite String.eqb_refl.
  - rewrite Hv; simpl; now rewrite Hne.
Qed.

Lemma find_entry_absent (id : string) (es : list pyval) :
  Forall (other_id id) es -> find_entry id es = Return PyNone.
Proof.
  induction 1 as [|x es [v [Hv Hne]] _ IH]; simpl.
  - reflexivity.
  - rewrite Hv; simpl; now rewrite Hne.
Qed.

Lemma find_entry_present (id : string) (es : list pyval) :
  Forall with_id es -> Exists (has_id id) es ->
  exists e, find_entry id es = Return e /\ In e es /\ has_id id e.
Proof.
  induction 1 as [|x es [v Hv] _ IH]; intros Hex.
  - inversion Hex.
  - simpl; rewrite Hv; simpl.
    destruct (Py.eq_str v id) eqn:E.
    + exists x; repeat split; [now left|].
      apply eq_str_true in E; subst; exact Hv.
    + destruct IH as [e [He [Hin Hid]]].
      * inversion Hex as [? ? Hx|]; subst; [|assumption].
        unfold has_id in Hx; rewrite Hx in Hv; inversion Hv; subst.
        simpl in E; rewrite String.eqb_refl in E; discriminate.
      * exists e; repeat split; [assumption|now right|assumption].
Qed.

Lemma has_id_not_none (id : string) (e : pyval) : has_id id e -> e <> PyNone.
Proof. intros H ->; discriminate H. Qed.

Section GetEntry.

Context {cm : Str.case_map}.
Variable root : Path.
Variable create : os_state -> (string + pyval) * os_state.

Lemma get_entry_loaded (s : string) (w w' : world) (es : list pyval) :
  load_entries root create None w = (Return (PyList es), w') ->
  get_entry root create s w = (find_entry (Str.upper s) es, w').
Proof.
  intros Hload; unfold get_entry.
  now rewrite (bindM_return _ _ _ _ _ Hload).
Qed.

(** C2: [get_entry] upper-cases the id and scans the loaded entries in
    order.  It returns the first entry whose id is the upper-cased id,
    and [None], without raising, when every entry carries another id;
    so [get_entry s] is [get_entry (upper s)], [get_entry "asi01"] is
    [get_entry "ASI01"], and an id whose upper-case form is canonical
    and carried by some entry of the list is found, with that id. *)
Theorem get_entry_first_match (s : string) (w : world) :
  get_entry root create s w = get_entry root create (Str.upper s) w /\
  get_entry root create "asi01" w = get_entry root create "ASI01" w /\
  forall (w' : world) (es : list pyval),
    load_entries root create None w = (Return (PyList es), w') ->
    get_entry root create s w = (find_entry (Str.upper s) es, w') /\
    (forall pre e post,
        es = pre ++ e :: post ->
        Forall (other_id (Str.upper s)) pre -> has_id (Str.upper s) e ->
        get_entry root create s w = (Return e, w')) /\
    (Forall (other_id (Str.upper s)) es ->
     get_entry root create s w = (Return PyNone, w')) /\
    (In (Str.upper s) ASI_IDS -> Forall with_id es ->
     Exists (has_id (Str.upper s)) es ->
     exists e, get_entry root create s w = (Return e, w') /\
               e <> PyNone /\ has_id (Str.upper s) e).
Proof.
  split; [unfold get_entry; now rewrite upper_idempotent|].
  split.
  - unfold get_entry.
    now rewrite !Str.upper_ascii_text by reflexivity.
  - intros w' es Hload.
    rewrite !(get_entry_loaded _ _ _ _ Hload).
    split; [reflexivity|].
    split; [|split].
    + intros pre e post -> Hpre He; now rewrite find_entry_first.
    + intros Hall; now rewrite find_entry_absent.
    + intros _ Hall Hex.
      destruct (find_entry_present _ _ Hall Hex) as [e [He [_ Hid]]].
      exists e; rewrite He; repeat split; [|assumption].
      now apply has_id_not_none with (Str.upper s).
Qed.

End GetEntry.

(** ** The accessors that need the entry to exist *)

Lemma getitem_not_ValueError (v : pyval) (k : string) (e : exn) :
  Py.getitem v k = Raise e -> is_ValueError e = false.
Proof.
  destruct v; simpl; try (now intros [= <-]).
  destruct (Py.lookup k items); [discriminate|now intros [= <-]].
Qed.

Lemma iter_not_ValueError (v : pyval) (e : exn) :
  Py.iter v = Raise e -> is_ValueError e = false.
Proof. destruct v; simpl; (now intros [= <-]) || discriminate. Qed.

Lemma find_entry_not_ValueError (id : string) (es : list pyval) (e : exn) :
  find_entry id es = Raise e -> is_ValueError e = false.
Proof.
  induction es as [|x es IH]; simpl; [discriminate|].
  destruct (Py.getitem x "id") as [v|e'] eqn:E; simpl.
  - destruct (Py.eq_str v id); [discriminate|exact IH].
  - intros [= <-]; now apply getitem_not_ValueError in E.
Qed.

Section RequiresEntry.

Context {cm : Str.case_map}.
Variable root : Path.
Variable create : os_state -> (string + pyval) * os_state.

Lemma get_entry_not_ValueError (s : string) (w : world) (e : exn) :
  dataset_loads root create w ->
  fst (get_entry root create s w) = Raise e -> is_ValueError e = false.
Proof.
  intros [es [w' Hload]]; unfold get_entry.
  rewrite (bindM_return _ _ _ _ _ Hload); unfold lift; simpl.
  destruct (Py.iter es) as [l|e'] eqn:E; simpl.
  - apply find_entry_not_ValueError.
  - intros [= <-]; now apply iter_not_ValueError in E.
Qed.

Lemma requires_entry_shape (field : string) (s : string) (w : world) :
  requires_entry (dataset_loads root create w) (get_entry root create)
    (fun asi_id =>
       entry <- get_entry root create asi_id ;;
       if is_none entry then raise (entry_not_found asi_id)
       else lift (Py.getitem entry field))
    field s w.
Proof.
  unfold requires_entry, fails_with_ValueError, bindM, raise, lift.
  destruct (get_entry root create s w) as [[entry|e] w1] eqn:E; simpl.
  - destruct (is_none entry) eqn:N.
    + assert (entry = PyNone) as -> by (destruct entry; (reflexivity || discriminate)).
      simpl; repeat split; try reflexivity.
      * intros e0 [= <-] Hne; now destruct Hne.
      * intros _; eexists; split; reflexivity.
    + assert (Hne : entry <> PyNone) by (intros ->; discriminate).
      simpl; repeat split.
      * intros [= ->]; now destruct Hne.
      * intros e0 [= <-] _; reflexivity.
      * intros [e0 [Hg Hv]]; apply getitem_not_ValueError in Hg.
        rewrite Hg in Hv; discriminate.
      * intros [= ->]; now destruct Hne.
  - repeat split; try discriminate.
    intros [e0 [[= <-] Hv]].
    assert (F : is_ValueError e = false)
      by (apply (get_entry_not_ValueError s w); [assumption|now rewrite E]).
    rewrite F in Hv; discriminate.
Qed.

(** C3, amended: each of [get_mitigations], [get_attack_scenarios] and
    [get_related_llm_entries] raises the not-found error when
    [get_entry] returns [None] for the id, and otherwise returns the
    field of its name of the entry that [get_entry] found; when the
    dataset loads, it fails with a [ValueError] if and only if
    [get_entry] returns [None]. *)
Theorem existence_requiring_accessors (s : string) (w : world) :
  requires_entry (dataset_loads root create w) (get_entry root create)
    (get_mitigations root create) "mitigations" s w /\
  requires_entry (dataset_loads root create w) (get_entry root create)
    (get_attack_scenarios root create) "attack_scenarios" s w /\
  requires_entry (dataset_loads root create w) (get_entry root create)
    (get_related_llm_entries root create) "related_llm_entries" s w.
Proof.
  split; [|split].
  - exact (requires_entry_shape "mitigations" s w).
  - exact (requires_entry_shape "attack_scenarios" s w).
  - exact (requires_entry_shape "related_llm_entries" s w).
Qed.

End RequiresEntry.

(** ** [get_threats_for_component] *)

Lemma prefix_occurs (k s : string) :
  String.prefix k s = true -> exists post, s = (k ++ post)%string.
Proof.
  revert s; induction k as [|a k IH]; intros s H.
  - now exists s.
  - destruct s as [|b s]; simpl in H; [discriminate|].
    destruct (ascii_dec a b) as [->|]; [|discriminate].
    destruct (IH _ H) as [post ->]; now exists post.
Qed.

Lemma contains_unfold (k s : string) :
  Str.contains k s =
  if String.prefix k s then true
  else match s with
       | EmptyString => false
       | String _ s' => Str.contains k s'
       end.
Proof. destruct s; reflexivity. Qed.

Lemma contains_occurs (k s : string) : Str.contains k s = true -> occurs_in k s.
Proof.
  induction s as [|c s IH]; rewrite contains_unfold;
    destruct (String.prefix k _) eqn:E;
    try (intros _; destruct (prefix_occurs _ _ E) as [post ->]; now exists "", post).
  - discriminate.
  - intros H; destruct (IH H) as [pre [post ->]].
    now exists (String c pre), post.
Qed.

Lemma occurs_in_app (k a s : string) : occurs_in k s -> occurs_in k (a ++ s).
Proof.
  intros [pre [post ->]]; exists (a ++ pre)%string, post.
  induction a as [|c a IH]; simpl; [reflexivity|now rewrite IH].
Qed.

Lemma vocabulary_listed (component_type k : string) :
  In k (map fst COMPONENT_THREAT_MAP) -> occurs_in k (unknown_component component_type).
Proof.
  intros Hk; unfold unknown_component.
  do 3 apply occurs_in_app.
  apply contains_occurs.
  simpl in Hk.
  repeat (destruct Hk as [<- | Hk]; [vm_compute; reflexivity|]); contradiction.
Qed.

Lemma filter_by_id_filter (ids : list string) (es : list pyval) :
  Forall with_id es -> filter_by_id ids es = Return (filter (id_among ids) es).
Proof.
  induction 1 as [|x es [v Hv] _ IH]; simpl.
  - reflexivity.
  - unfold id_among; rewrite Hv, IH; simpl.
    now destruct (Py.in_strs v ids).
Qed.

Lemma carries_with_id (es : list pyval) (ids : list string) :
  carries es ids -> Forall with_id es.
Proof.
  unfold carries, ids_of; revert ids.
  induction es as [|e es IH]; intros ids H; [constructor|].
  destruct ids as [|i ids]; [discriminate|].
  simpl in H; injection H as He Hes.
  constructor; [now exists (PyStr i)|now apply IH with ids].
Qed.

Lemma carries_filter (sub ids : list string) (es : list pyval) :
  carries es ids ->
  carries (filter (id_among sub) es) (filter (fun i => existsb (String.eqb i) sub) ids).
Proof.
  unfold carries, ids_of; revert ids.
  induction es as [|e es IH]; intros ids H.
  - destruct ids; [reflexivity|discriminate].
  - destruct ids as [|i ids]; [discriminate|].
    simpl in H; injection H as He Hes.
    assert (T : id_among sub e = existsb (String.eqb i) sub).
    { unfold id_among; rewrite He; unfold Py.in_strs; simpl.
      reflexivity. }
    simpl; rewrite T.
    destruct (existsb (String.eqb i) sub); simpl; [rewrite He|]; now rewrite (IH _ Hes).
Qed.

Lemma subsets_canonical (key : string) (sub : list string) :
  In (key, sub) COMPONENT_THREAT_MAP ->
  filter (fun i => existsb (String.eqb i) sub) ASI_IDS = sub.
Proof.
  unfold COMPONENT_THREAT_MAP; simpl.
  intros H; repeat (destruct H as [[= <- <-] | H]; [reflexivity|]); contradiction.
Qed.

Lemma component_lookup_In (key : string) (sub : list string)
  (m : list (string * list string)) :
  component_lookup key m = Some sub -> In (key, sub) m.
Proof.
  induction m as [|[k v] m IH]; simpl; [discriminate|].
  destruct (String.eqb k key) eqn:E.
  - intros [= <-]; apply String.eqb_eq in E; subst; now left.
  - intros H; right; now apply IH.
Qed.

Section Threats.

Context {cm : Str.case_map}.
Variable root : Path.
Variable create : os_state -> (string + pyval) * os_state.

(** C1: [get_threats_for_component] lower-cases the component type, so
    that "LLM_Agent" is "llm_agent".  A type that is not one of the 12
    keys fails with an error whose message lists every key; for a key,
    the entries of the dataset, given or loaded, whose id is in the
    key's subset are returned in the dataset's order, so that on entries
    numbered canonically the ids returned are the subset itself,
    ["ASI01"; "ASI05"; "ASI06"; "ASI10"] for "llm_agent". *)
Theorem get_threats_for_component_spec (component_type : string) (data : pyval) (w : world) :
  length COMPONENT_THREAT_MAP = 12 /\
  NoDup (map fst COMPONENT_THREAT_MAP) /\
  get_threats_for_component root create component_type data w =
    get_threats_for_component root create (Str.lower component_type) data w /\
  get_threats_for_component root create "LLM_Agent" data w =
    get_threats_for_component root create "llm_agent" data w /\
  (component_lookup (Str.lower component_type) COMPONENT_THREAT_MAP = None ->
   get_threats_for_component root create component_type data w =
     (Raise (ValueError (unknown_component (Str.lower component_type))), w) /\
   forall k, In k (map fst COMPONENT_THREAT_MAP) ->
             occurs_in k (unknown_component (Str.lower component_type))) /\
  (forall sub d w' es,
      component_lookup (Str.lower component_type) COMPONENT_THREAT_MAP = Some sub ->
      dataset_used root create data w = (Return d, w') ->
      Py.getitem d "entries" = Return (PyList es) ->
      (Forall with_id es ->
       get_threats_for_component root create component_type data w =
         (Return (filter (id_among sub) es), w')) /\
      (carries es ASI_IDS -> carries (filter (id_among sub) es) sub)) /\
  (forall d w' es,
      dataset_used root create data w = (Return d, w') ->
      Py.getitem d "entries" = Return (PyList es) ->
      carries es ASI_IDS ->
      exists l, get_threats_for_component root create "LLM_Agent" data w = (Return l, w') /\
                get_threats_for_component root create "llm_agent" data w = (Return l, w') /\
                carries l ["ASI01"; "ASI05"; "ASI06"; "ASI10"]).
Proof.
  assert (Known : forall ct sub d w' es,
             component_lookup (Str.lower ct) COMPONENT_THREAT_MAP = Some sub ->
             dataset_used root create data w = (Return d, w') ->
             Py.getitem d "entries" = Return (PyList es) ->
             Forall with_id es ->
             get_threats_for_component root create ct data w =
               (Return (filter (id_among sub) es), w')).
  { intros ct sub d w' es Hsub Hd Hes Hall.
    unfold get_threats_for_component; rewrite Hsub.
    unfold dataset_used in Hd.
    rewrite (bindM_return _ _ _ _ _ Hd).
    unfold bindM, lift; rewrite Hes; simpl.
    now rewrite filter_by_id_filter. }
  assert (Mixed : get_threats_for_component root create "LLM_Agent" data w =
                  get_threats_for_component root create "llm_agent" data w).
  { unfold get_threats_for_component.
    now rewrite !Str.lower_ascii_text by reflexivity. }
  split; [reflexivity|].
  split; [repeat constructor; simpl; intuition discriminate|].
  split; [unfold get_threats_for_component; now rewrite lower_idempotent|].
  split; [exact Mixed|].
  split; [|split].
  - intros Hnone; split.
    + unfold get_threats_for_component; now rewrite Hnone.
    + intros k Hk; now apply vocabulary_listed.
  - intros sub d w' es Hsub Hd Hes; split.
    + intros Hall; now apply Known with d.
    + intros Hc.
      rewrite <- (subsets_canonical (Str.lower component_type) sub) at 2
        by now apply component_lookup_In.
      now apply carries_filter.
  - intros d w' es Hd Hes Hc.
    exists (filter (id_among ["ASI01"; "ASI05"; "ASI06"; "ASI10"]) es).
    assert (Hl : get_threats_for_component root create "llm_agent" data w =
                 (Return (filter (id_among ["ASI01"; "ASI05"; "ASI06"; "ASI10"]) es), w')).
    { apply Known with d; [|assumption|assumption|].
      - now rewrite Str.lower_ascii_text by reflexivity.
      - now apply carries_with_id with ASI_IDS. }
    split; [now rewrite Mixed|split; [exact Hl|]].
    apply (carries_filter ["ASI01"; "ASI05"; "ASI06"; "ASI10"] ASI_IDS es Hc).
Qed.

End Threats.

(** ** The mapping to the LLM Top 10 *)

Lemma key_eqb_str (k : pyval) (s : string) :
  Py.key_eqb k (PyStr s) = true <-> k = PyStr s.
Proof.
  destruct k; simpl; split; intros H; try discriminate.
  - apply String.eqb_eq in H; now subst.
  - inversion H; apply String.eqb_refl.
Qed.

Lemma dict_getitem_setitem_same (id : string) (v : pyval) (d : list (pyval * pyval)) :
  Py.dict_getitem (Py.setitem (PyStr id) v d) id = Return v.
Proof.
  induction d as [|[k' v'] d IH]; simpl.
  - now rewrite String.eqb_refl.
  - destruct (Py.key_eqb k' (PyStr id)) eqn:E; simpl; now rewrite E.
Qed.

Lemma dict_getitem_setitem_other (i id : string) (v : pyval) (d : list (pyval * pyval)) :
  i <> id ->
  Py.dict_getitem (Py.setitem (PyStr i) v d) id = Py.dict_getitem d id.
Proof.
  intros Hne; induction d as [|[k' v'] d IH]; simpl.
  - destruct (String.eqb i id) eqn:E; [|reflexivity].
    apply String.eqb_eq in E; contradiction.
  - destruct (Py.key_eqb k' (PyStr i)) eqn:E; simpl.
    + apply key_eqb_str in E; subst; simpl.
      destruct (String.eqb i id) eqn:E'; [|reflexivity].
      apply String.eqb_eq in E'; contradiction.
    + now rewrite IH.
Qed.

Lemma other_id_entry (id : string) (e : pyval) :
  is_entry e -> other_id id e ->
  exists i v, i <> id /\ Py.getitem e "id" = Return (PyStr i) /\
              Py.getitem e "related_llm_entries" = Return v.
Proof.
  intros [i [v [Hi Hv]]] [x [Hx Hne]].
  rewrite Hi in Hx; injection Hx as <-.
  exists i, v; repeat split; try assumption.
  intros ->; simpl in Hne; rewrite String.eqb_refl in Hne; discriminate.
Qed.

Lemma build_mapping_others (id : string) (es : list pyval) :
  Forall is_entry es -> Forall (other_id id) es ->
  forall acc, exists d, build_mapping es acc = Return d /\
                        Py.dict_getitem d id = Py.dict_getitem acc id.
Proof.
  induction 1 as [|e es He _ IH]; intros Hother acc.
  - now exists acc.
  - inversion Hother as [|? ? Ho Hos]; subst.
    destruct (other_id_entry _ _ He Ho) as [i [v [Hne [Hi Hv]]]].
    destruct (IH Hos (Py.setitem (PyStr i) v acc)) as [d [Hd Hget]].
    exists d; simpl; rewrite Hi, Hv; simpl; split; [assumption|].
    now rewrite Hget, dict_getitem_setitem_other.
Qed.

Lemma build_mapping_single (id : string) (pre post : list pyval) (e v : pyval) :
  Forall is_entry pre -> Forall (other_id id) pre ->
  has_id id e -> Py.getitem e "related_llm_entries" = Return v ->
  Forall is_entry post -> Forall (other_id id) post ->
  forall acc, exists d, build_mapping (pre ++ e :: post) acc = Return d /\
                        Py.dict_getitem d id = Return v.
Proof.
  intros Hpre; induction Hpre as [|x pre Hx _ IH]; intros Hother He Hv Hpost Hopost acc.
  - destruct (build_mapping_others id post Hpost Hopost (Py.setitem (PyStr id) v acc))
      as [d [Hd Hget]].
    exists d; simpl; unfold has_id in He; rewrite He, Hv; simpl; split; [assumption|].
    now rewrite Hget, dict_getitem_setitem_same.
  - inversion Hother as [|? ? Ho Hos]; subst.
    destruct (other_id_entry _ _ Hx Ho) as [i [u [Hne [Hi Hu]]]].
    destruct (IH Hos He Hv Hpost Hopost (Py.setitem (PyStr i) u acc)) as [d [Hd Hget]].
    exists d; simpl; rewrite Hi, Hu; simpl; now split.
Qed.

Section Mapping.

Context {cm : Str.case_map}.
Variable root : Path.
Variable create : os_state -> (string + pyval) * os_state.

(** C4, amended: for a canonical id that exactly one entry of the loaded
    list carries, [get_asi_to_llm_mapping()[id]] is
    [get_related_llm_entries(id)]: both are the related entries of that
    entry. *)
Theorem round_trip_unique_id (id : string) (w w' : world)
  (pre post : list pyval) (e : pyval)
  (Hload : load_entries root create None w = (Return (PyList (pre ++ e :: post)), w'))
  (Hwf : Forall is_entry (pre ++ e :: post))
  (Hid : In id ASI_IDS)
  (Hpre : Forall (other_id id) pre)
  (He : has_id id e)
  (Hpost : Forall (other_id id) post) :
  round_trip root create id w /\
  get_related_llm_entries root create id w =
    (Py.getitem e "related_llm_entries", w').
Proof.
  assert (Hr : get_related_llm_entries root create id w =
               (Py.getitem e "related_llm_entries", w')).
  { unfold get_related_llm_entries.
    assert (Hg : get_entry root create id w = (Return e, w')).
    { rewrite (get_entry_loaded _ _ _ _ _ _ Hload), (upper_canonical _ Hid).
      now rewrite find_entry_first. }
    rewrite (bindM_return _ _ _ _ _ Hg).
    destruct e; try reflexivity.
    discriminate He. }
  split; [|exact Hr].
  unfold round_trip; rewrite Hr.
  apply Forall_app in Hwf as [Hwpre Hwrest].
  inversion Hwrest as [|? ? [i [v [Hi Hv]]] Hwpost]; subst.
  destruct (build_mapping_single id pre post e v Hwpre Hpre He Hv Hwpost Hpost [])
    as [d [Hd Hget]].
  assert (Hm : get_asi_to_llm_mapping root create w = (Return d, w')).
  { unfold get_asi_to_llm_mapping.
    rewrite (bindM_return _ _ _ _ _ Hload).
    unfold lift; simpl; now rewrite Hd. }
  unfold mapping_at.
  rewrite (bindM_return _ _ _ _ _ Hm).
  unfold lift; now rewrite Hget, Hv.
Qed.

End Mapping.

(** ** The cache *)

Section Cache.

Variable root : Path.
Variable create : os_state -> (string + pyval) * os_state.

Lemma load_dataset_hit (fp : option pathlike) (w : world) :
  dataset_cache w <> PyNone ->
  load_dataset root create fp true w = (Return (dataset_cache w), w).
Proof.
  intros H; unfold load_dataset, bindM, read_cache, ret.
  destruct (dataset_cache w); try reflexivity.
  now destruct H.
Qed.

Lemma load_dataset_miss (fp : option pathlike) (uc : bool) (w : world) :
  uc && negb (is_none (dataset_cache w)) = false ->
  fst (load_dataset root create fp uc w) = load_path_result root create fp (os w) /\
  io_log (snd (load_dataset root create fp uc w)) =
    load_path_event root fp (os w) :: io_log w /\
  objects (snd (load_dataset root create fp uc w)) = objects w /\
  dataset_cache (snd (load_dataset root create fp uc w)) =
    match load_path_result root create fp (os w) with
    | Return d => if uc then d else dataset_cache w
    | Raise _ => dataset_cache w
    end.
Proof.
  intros Hmiss.
  unfold load_dataset, load_path_result, load_path_event, bindM, read_cache,
    path_exists, open_json, create_owasp_agentic_top10, write_cache, ret.
  rewrite Hmiss; fold (dataset_path root fp).
  destruct (Os.exists_ (dataset_path root fp) (os w)).
  - destruct (Os.read_json (dataset_path root fp) (os w)) as [d|e];
      destruct uc; repeat split.
  - destruct (create (os w)) as [[tag|d] s1]; simpl;
      destruct uc; repeat split.
Qed.

Lemma load_dataset_objects (fp : option pathlike) (uc : bool) (w : world) :
  objects (snd (load_dataset root create fp uc w)) = objects w.
Proof.
  destruct (uc && negb (is_none (dataset_cache w))) eqn:E.
  - unfold load_dataset, bindM, read_cache, ret; now rewrite E.
  - now destruct (load_dataset_miss fp uc w E) as [_ [_ [Ho _]]].
Qed.

(** C6: [clear_cache] returns without an error, leaves the cache
    empty, and a second call changes nothing more.  With a dataset
    cached, [load_dataset] with [use_cache] returns it and leaves the
    state as it is, the record of load-path work included.  After
    [clear_cache], [load_dataset] does the work of the load path, and
    its result is what the file or the provider gives, whatever had been
    cached before. *)
Theorem cache_state_machine (fp : option pathlike) (w : world) :
  clear_cache w = (Return tt, set_cache PyNone w) /\
  dataset_cache (snd (clear_cache w)) = PyNone /\
  clear_cache (snd (clear_cache w)) = (Return tt, snd (clear_cache w)) /\
  (dataset_cache w <> PyNone ->
   load_dataset root create fp true w = (Return (dataset_cache w), w)) /\
  (forall uc,
      let w0 := snd (clear_cache w) in
      fst (load_dataset root create fp uc w0) = load_path_result root create fp (os w) /\
      io_log (snd (load_dataset root create fp uc w0)) =
        load_path_event root fp (os w) :: io_log w).
Proof.
  split; [reflexivity|].
  split; [reflexivity|].
  split; [reflexivity|].
  split; [apply load_dataset_hit|].
  intros uc w0.
  destruct (load_dataset_miss fp uc w0) as [Hr [Hl _]].
  - simpl; now rewrite andb_false_r.
  - split; assumption.
Qed.

(** C10: [load_dataset] with [use_cache=False] leaves the cache as it
    was, empty or not; so a dataset cached before the call is what a
    later [load_dataset] with [use_cache] returns. *)
Theorem load_dataset_uncached_frame (fp fp' : option pathlike) (w : world) :
  let w1 := snd (load_dataset root create fp false w) in
  dataset_cache w1 = dataset_cache w /\
  fst (load_dataset root create fp false w) = load_path_result root create fp (os w) /\
  (dataset_cache w <> PyNone ->
   load_dataset root create fp' true w1 = (Return (dataset_cache w), w1)).
Proof.
  intros w1.
  destruct (load_dataset_miss fp false w eq_refl) as [Hr [_ [_ Hc]]].
  assert (Hsame : dataset_cache w1 = dataset_cache w).
  { unfold w1; rewrite Hc.
    now destruct (load_path_result root create fp (os w)). }
  split; [exact Hsame|].
  split; [exact Hr|].
  intros Hcached; rewrite <- Hsame.
  apply load_dataset_hit; now rewrite Hsame.
Qed.

End Cache.

(** ** [load_entries] *)

Section LoadEntries.

Variable root : Path.
Variable create : os_state -> (string + pyval) * os_state.

Lemma load_entries_from_file (f : pathlike) (w : world) :
  load_entries root create (Some f) w =
  (Py.bind (Os.read_json (to_Path f) (os w)) (fun data => Py.get data "entries" data),
   log (Opened (Os.locate (os w) (to_Path f))) w).
Proof.
  unfold load_entries, bindM, open_json, lift.
  now destruct (Os.read_json (to_Path f) (os w)).
Qed.

(** C5, on the code: a file that holds an object is read as the claim
    says, its [entries] field or, without one, the object; without a
    path the entries of [load_dataset()] are returned; but a file that
    holds a bare array makes [load_entries] raise [AttributeError]. *)
Theorem load_entries_bare_array (l : list pyval) :
  let w := initial_world (Fixture.disk [(["home"; "entries.json"], Some (PyList l))]) in
  fst (load_entries root create (Some (OfStr "entries.json")) w) = Raise AttributeError /\
  (forall f w items,
      Os.read_json (to_Path f) (os w) = Return (PyDict items) ->
      fst (load_entries root create (Some f) w) =
        Return (match Py.lookup "entries" items with
                | Some es => es
                | None => PyDict items
                end)) /\
  (forall w, load_entries root create None w =
             (data <- load_dataset root create None true ;;
              lift (Py.getitem data "entries")) w).
Proof.
  split; [reflexivity|].
  split; [|reflexivity].
  intros f w items H; rewrite load_entries_from_file, H; simpl.
  now destruct (Py.lookup "entries" items).
Qed.

End LoadEntries.

(** ** Incidents *)

Lemma filter_incidents_filter (id : string) (incidents : list pyval) :
  Forall is_incident incidents ->
  filter_incidents id incidents = Return (filter (linked id) incidents).
Proof.
  induction 1 as [|x l [rel Hrel] _ IH]; simpl.
  - reflexivity.
  - unfold linked; rewrite Hrel, IH; simpl.
    now destruct (existsb _ rel).
Qed.

Section Incidents.

Context {cm : Str.case_map}.
Variable root : Path.
Variable create : os_state -> (string + pyval) * os_state.

(** C8: [get_incidents_by_asi] upper-cases the id, so that "asi06" is
    "ASI06", and returns the incidents of [get_incidents()] whose
    related ids hold it, in their order; none when no incident is linked
    to the id. *)
Theorem get_incidents_by_asi_filter (s : string) (w : world) :
  get_incidents_by_asi root create s w =
    get_incidents_by_asi root create (Str.upper s) w /\
  get_incidents_by_asi root create "asi06" w =
    get_incidents_by_asi root create "ASI06" w /\
  forall (w' : world) (incidents : list pyval),
    get_incidents root create w = (Return (PyList incidents), w') ->
    Forall is_incident incidents ->
    get_incidents_by_asi root create s w =
      (Return (filter (linked (Str.upper s)) incidents), w') /\
    (Forall (fun i => linked (Str.upper s) i = false) incidents ->
     get_incidents_by_asi root create s w = (Return [], w')).
Proof.
  split; [unfold get_incidents_by_asi; now rewrite upper_idempotent|].
  split.
  - unfold get_incidents_by_asi.
    now rewrite !Str.upper_ascii_text by reflexivity.
  - intros w' incidents Hget Hall.
    assert (Hres : get_incidents_by_asi root create s w =
                   (Return (filter (linked (Str.upper s)) incidents), w')).
    { unfold get_incidents_by_asi.
      rewrite (bindM_return _ _ _ _ _ Hget); unfold lift; simpl.
      now rewrite filter_incidents_filter. }
    split; [exact Hres|].
    intros Hnone; rewrite Hres; do 2 f_equal.
    clear Hres Hall Hget; induction Hnone as [|x l Hx _ IH]; simpl.
    + reflexivity.
    + now rewrite Hx.
Qed.

End Incidents.

(** ** [generate_all_formats] *)

Lemma is_prefix_refl (a : place) : is_prefix a a = true.
Proof. induction a as [|x a IH]; simpl; [reflexivity|now rewrite String.eqb_refl]. Qed.

Lemma mkdir_p_raise (p : Path) (s s1 : os_state) (e : exn) :
  Os.mkdir_p p s = (Raise e, s1) -> s1 = s.
Proof.
  unfold Os.mkdir_p.
  destruct (fs s (Os.locate s p)) as [[|c|x]|]; try (now intros [= <-]); try discriminate.
  destruct (Os.blocked s (Os.locate s p)); [now intros [= <-]|discriminate].
Qed.

Lemma mkdir_p_return (p : Path) (s s1 : os_state) :
  Os.mkdir_p p s = (Return tt, s1) ->
  cwd s1 = cwd s /\
  fs s1 (Os.locate s p) = Some Dir /\
  forall a, Os.is_dir s a = true -> Os.is_dir s1 a = true.
Proof.
  unfold Os.mkdir_p.
  destruct (fs s (Os.locate s p)) as [[|c|x]|] eqn:E; try discriminate.
  - intros [= <-]; repeat split; auto.
  - destruct (Os.blocked s (Os.locate s p)); [discriminate|].
    intros [= <-]; simpl; repeat split.
    + now rewrite E, is_prefix_refl.
    + intros a; unfold Os.is_dir; simpl.
      now destruct (fs s a) as [[|c|x]|].
Qed.

Section Generate.

Variable main : os_state -> (string + unit) * os_state.

(** C7, amended: when the original working directory is still there
    at the end of the provider's call, [generate_all_formats] leaves the
    working directory as it found it, whether it returns or raises; the
    provider runs with the output directory as working directory; and
    what is returned is the mapping of the 8 names to the files of
    their names in the output directory, whatever the provider has
    written. *)
Theorem generate_all_formats_scoped_chdir (output_dir : pathlike) (w : world)
  (Hstill : forall s1,
      Os.mkdir_p (to_Path output_dir) (os w) = (Return tt, s1) ->
      Os.is_dir (snd (main {| cwd := Os.locate (os w) (to_Path output_dir);
                              fs := fs s1 |})) (cwd (os w)) = true) :
  let p := to_Path output_dir in
  let files :=
    [ ("full_json", under p "owasp_agentic_top10_full.json");
      ("full_yaml", under p "owasp_agentic_top10_full.yaml");
      ("entries_json", under p "owasp_agentic_top10_entries.json");
      ("entries_yaml", under p "owasp_agentic_top10_entries.yaml");
      ("mappings_json", under p "owasp_agentic_top10_mappings.json");
      ("mappings_yaml", under p "owasp_agentic_top10_mappings.yaml");
      ("simplified_json", under p "owasp_agentic_top10_simplified.json");
      ("simplified_yaml", under p "owasp_agentic_top10_simplified.yaml") ] in
  cwd (os (snd (generate_all_formats main output_dir w))) = cwd (os w) /\
  (forall m, fst (generate_all_formats main output_dir w) = Return m -> m = files) /\
  (forall s1,
      Os.mkdir_p p (os w) = (Return tt, s1) ->
      let s2 := {| cwd := Os.locate (os w) p; fs := fs s1 |} in
      generate_all_formats main output_dir w =
        (match fst (main s2) with
         | inr _ => Return files
         | inl tag => Raise (ProviderError tag)
         end,
         log Ran (set_os {| cwd := cwd (os w); fs := fs (snd (main s2)) |} w))).
Proof.
  intros p files.
  assert (Hfiles : output_files p = files) by reflexivity.
  assert (Run : forall s1,
             Os.mkdir_p p (os w) = (Return tt, s1) ->
             generate_all_formats main output_dir w =
               (match fst (main {| cwd := Os.locate (os w) p; fs := fs s1 |}) with
                | inr _ => Return files
                | inl tag => Raise (ProviderError tag)
                end,
                log Ran (set_os {| cwd := cwd (os w);
                                   fs := fs (snd (main {| cwd := Os.locate (os w) p;
                                                          fs := fs s1 |})) |} w))).
  { intros s1 Hmk.
    destruct (mkdir_p_return _ _ _ Hmk) as [Hc [Hdir _]].
    assert (Hloc : Os.locate s1 p = Os.locate (os w) p)
      by (unfold Os.locate; now rewrite Hc).
    specialize (Hstill s1 Hmk); fold p in Hstill.
    rewrite <- Hfiles.
    unfold generate_all_formats; fold p.
    unfold bindM, mkdir_p, os_call at 1; rewrite Hmk.
    unfold getcwd, chdir, os_call at 1; simpl.
    unfold Os.chdir at 1; rewrite Hloc, Hdir.
    unfold try_finally, run_parser_main; simpl.
    destruct (main {| cwd := Os.locate (os w) p; fs := fs s1 |}) as [r s3] eqn:Em.
    assert (Hback : fs s3 (cwd (os w)) = Some Dir).
    { unfold Os.is_dir in Hstill; simpl in Hstill.
      now destruct (fs s3 (cwd (os w))) as [[|c|x]|]. }
    unfold os_call, Os.chdir, Os.getcwd, Os.locate; simpl.
    rewrite Hc, Hback; simpl.
    destruct r as [tag|[]]; reflexivity. }
  destruct (Os.mkdir_p p (os w)) as [[[]|e] s1] eqn:Hmk.
  - rewrite (Run s1 eq_refl); simpl.
    split; [reflexivity|].
    split.
    + intros m Hm.
      destruct (fst (main {| cwd := Os.locate (os w) p; fs := fs s1 |}));
        [discriminate|].
      now injection Hm as <-.
    + intros s1' [= <-]; reflexivity.
  - assert (Hfail : generate_all_formats main output_dir w = (Raise e, set_os s1 w)).
    { unfold generate_all_formats; fold p.
      unfold bindM, mkdir_p, os_call at 1; now rewrite Hmk. }
    rewrite Hfail; simpl.
    split; [now rewrite (mkdir_p_raise _ _ _ _ Hmk)|].
    split; [discriminate|discriminate].
Qed.

End Generate.

(** ** [list_entry_ids] *)

Lemma nth_app_fresh {A} (l : list A) (x d : A) : nth (length l) (l ++ [x]) d = x.
Proof. induction l as [|y l IH]; simpl; [reflexivity|exact IH]. Qed.

Lemma nth_set_nth_other {A} (n m : nat) (x d : A) (l : list A) :
  n <> m -> nth m (set_nth n x l) d = nth m l d.
Proof.
  revert n m; induction l as [|y l IH]; intros n m Hne; simpl.
  - reflexivity.
  - destruct n, m; simpl; try reflexivity.
    + now destruct Hne.
    + apply IH; intros ->; now destruct Hne.
Qed.

Lemma nth_set_nth_same {A} (n : nat) (x d : A) (l : list A) :
  n < length l -> nth n (set_nth n x l) d = x.
Proof.
  revert n; induction l as [|y l IH]; intros n Hn; simpl in *.
  - lia.
  - destruct n; simpl; [reflexivity|apply IH; lia].
Qed.

Lemma length_set_nth {A} (n : nat) (x : A) (l : list A) :
  length (set_nth n x l) = length l.
Proof.
  revert n; induction l as [|y l IH]; intros n; simpl; [reflexivity|].
  destruct n; simpl; [reflexivity|now rewrite IH].
Qed.

Section ListEntryIds.

Variable root : Path.
Variable create : os_state -> (string + pyval) * os_state.

(** What holds in every state: the object of [ASI_IDS] is there, with
    the ten ids. *)
Lemma canonical_kept (w : world) :
  reachable root create w ->
  0 < length (objects w) /\ deref ASI_IDS_ref w = ASI_IDS.
Proof.
  induction 1 as [s|w w' _ [Hlen Hids] Hstep].
  - split; [simpl; lia|reflexivity].
  - destruct Hstep as [w|w r f Hr|w fp uc|w].
    + unfold list_entry_ids, list_copy, deref in *; simpl.
      split; [rewrite length_app; lia|].
      unfold ASI_IDS_ref in *.
      destruct (objects w); simpl in *; [lia|assumption].
    + unfold mutate, deref in *; simpl.
      split; [now rewrite length_set_nth|].
      now rewrite nth_set_nth_other.
    + unfold deref in *; now rewrite load_dataset_objects.
    + split; assumption.
Qed.

(** C9: in every state of the process, whatever has been loaded and
    whatever callers did to the lists they were given, [list_entry_ids]
    returns a new list object that holds the ten canonical ids in
    order; changing that object changes neither [ASI_IDS] nor what the
    next call returns. *)
Theorem list_entry_ids_fresh_copy (w : world) (Hw : reachable root create w) :
  exists r, fst (list_entry_ids w) = Return r /\
    let w1 := snd (list_entry_ids w) in
    deref r w1 = ASI_IDS /\
    length ASI_IDS = 10 /\
    r = length (objects w) /\
    r <> ASI_IDS_ref /\
    dataset_cache w1 = dataset_cache w /\
    (forall f : list string -> list string,
        let w2 := snd (mutate r f w1) in
        deref r w2 = f ASI_IDS /\
        deref ASI_IDS_ref w2 = ASI_IDS /\
        exists r', fst (list_entry_ids w2) = Return r' /\
                   r' <> r /\
                   deref r' (snd (list_entry_ids w2)) = ASI_IDS).
Proof.
  destruct (canonical_kept w Hw) as [Hlen Hids].
  exists (length (objects w)).
  split; [reflexivity|].
  assert (Hcopy : deref (length (objects w)) (snd (list_entry_ids w)) = ASI_IDS).
  { unfold list_entry_ids, list_copy, deref in *; simpl.
    now rewrite nth_app_fresh. }
  assert (Hfresh : length (objects w) <> ASI_IDS_ref)
    by (unfold ASI_IDS_ref; lia).
  cbv zeta.
  split; [exact Hcopy|].
  split; [reflexivity|].
  split; [reflexivity|].
  split; [exact Hfresh|].
  split; [reflexivity|].
  intros f.
  assert (Hw1 : reachable root create (snd (list_entry_ids w)))
    by (eapply reach_step; [exact Hw|constructor]).
  assert (Hw2 : reachable root create
                  (snd (mutate (length (objects w)) f (snd (list_entry_ids w)))))
    by (eapply reach_step; [exact Hw1|now constructor]).
  destruct (canonical_kept _ Hw2) as [Hlen2 Hids2].
  split; [|split; [exact Hids2|]].
  - unfold mutate; cbn [snd].
    unfold deref at 1; unfold set_objects; cbn [objects].
    rewrite nth_set_nth_same; [now rewrite Hcopy|].
    unfold list_entry_ids, list_copy; simpl.
    rewrite length_app; simpl; lia.
  - exists (length (objects (snd (mutate (length (objects w)) f (snd (list_entry_ids w)))))).
    split; [reflexivity|].
    split.
    + simpl; rewrite length_set_nth, length_app; simpl; lia.
    + unfold list_entry_ids, list_copy, deref in *; simpl in *.
      now rewrite nth_app_fresh.
Qed.

End ListEntryIds.

(** ** The accessor at work *)

Import Fixture.

Section AtWork.

Local Existing Instance ascii_case.

Example llm_agent_threats :
  fst (get_threats_for_component root (creating dataset) "LLM_Agent" PyNone fresh) =
  Return [nth 0 entries PyNone; nth 4 entries PyNone;
          nth 5 entries PyNone; nth 9 entries PyNone].
Proof. reflexivity. Qed.

Example unknown_component_message :
  fst (get_threats_for_component root (creating dataset) "Nonexistent_Type" PyNone fresh) =
  Raise (ValueError
    "Unknown component type: 'nonexistent_type'. Valid types: code_executor, communication_layer, external_api, identity_system, llm_agent, memory_store, multi_agent, orchestrator, rag_system, supply_chain, tool_integration, user_interface").
Proof. reflexivity. Qed.

Example unknown_id_mitigations :
  fst (get_mitigations root (creating dataset) "ASI99" fresh) =
  Raise (ValueError "Entry not found: ASI99").
Proof. reflexivity. Qed.

Example provider_failure_surfaces :
  fst (get_entry root failing_create "ASI01" fresh) = Raise (ProviderError "ImportError").
Proof. reflexivity. Qed.

Example idle_provider_paths :
  fst (generate_all_formats idle_main (OfStr "./output") fresh) =
  Return (output_files {| anchored := false; parts := ["output"] |}).
Proof. reflexivity. Qed.

Example bare_array_file :
  fst (load_entries root (creating dataset) (Some (OfStr "entries.json"))
         (initial_world (disk [(["home"; "entries.json"], Some (PyList entries))]))) =
  Raise AttributeError.
Proof. reflexivity. Qed.

(** The threats of "LLM_Agent" on the documented dataset. *)
Lemma get_threats_for_component_spec_witness :
  exists l,
    get_threats_for_component root (creating dataset) "LLM_Agent" PyNone fresh =
      (Return l, loaded) /\
    get_threats_for_component root (creating dataset) "llm_agent" PyNone fresh =
      (Return l, loaded) /\
    carries l ["ASI01"; "ASI05"; "ASI06"; "ASI10"].
Proof.
  destruct (get_threats_for_component_spec root (creating dataset) "LLM_Agent" PyNone fresh)
    as (_ & _ & _ & _ & _ & _ & H).
  apply (H dataset loaded entries); reflexivity.
Defined.

(** "asi03" is found among the ten entries, as "ASI03". *)
Lemma get_entry_first_match_witness :
  exists e, get_entry root (creating dataset) "asi03" fresh = (Return e, loaded) /\
            e <> PyNone /\ has_id "ASI03" e.
Proof.
  destruct (get_entry_first_match root (creating dataset) "asi03" fresh) as (_ & _ & H).
  destruct (H loaded entries eq_refl) as (_ & _ & _ & Hfound).
  apply Hfound.
  - vm_compute; tauto.
  - repeat constructor; eexists; reflexivity.
  - do 2 apply Exists_cons_tl; apply Exists_cons_hd; reflexivity.
Defined.

(** An unknown id: [get_mitigations] raises the not-found error, a
    [ValueError], and [get_entry] has returned [None]. *)
Lemma existence_requiring_accessors_witness :
  get_mitigations root (creating dataset) "asi99" fresh =
    (Raise (entry_not_found "asi99"), loaded) /\
  (fails_with_ValueError (fst (get_mitigations root (creating dataset) "asi99" fresh)) <->
   fst (get_entry root (creating dataset) "asi99" fresh) = Return PyNone).
Proof.
  destruct (existence_requiring_accessors root (creating dataset) "asi99" fresh)
    as [(Habsent & _ & Hiff) _].
  split.
  - apply Habsent; reflexivity.
  - apply Hiff; exists (PyList entries), loaded; reflexivity.
Defined.

(** C3, as stated, fails: a dataset file that holds a number of 5000
    digits makes [get_mitigations] fail with the [ValueError] of
    [json.load], and [get_entry] has not returned [None]: it fails in
    the same way. *)
Lemma not_found_without_absence :
  ~ (forall (root : Path) (create : os_state -> (string + pyval) * os_state)
            (s : string) (w : world),
        (exists msg, fst (get_mitigations root create s w) = Raise (ValueError msg)) <->
        fst (get_entry root create s w) = Return PyNone).
Proof.
  intros H.
  destruct (H root failing_create "ASI01" (initial_world overlong_disk)) as [Habsent _].
  assert (R : fst (get_entry root failing_create "ASI01" (initial_world overlong_disk)) =
              Return PyNone)
    by (apply Habsent; eexists; reflexivity).
  vm_compute in R; discriminate R.
Qed.

(** The round trip on "ASI01", which one entry of the dataset carries. *)
Lemma round_trip_unique_id_witness :
  round_trip root (creating dataset) "ASI01" fresh.
Proof.
  apply (round_trip_unique_id root (creating dataset) "ASI01" fresh loaded
           [] (tl entries) (hd PyNone entries)).
  - reflexivity.
  - repeat constructor; do 2 eexists; split; reflexivity.
  - simpl; tauto.
  - constructor.
  - reflexivity.
  - repeat constructor; eexists; split; reflexivity.
Defined.

(** A cache hit: neither the other file nor the failing provider is touched. *)
Lemma cache_state_machine_witness :
  load_dataset root failing_create (Some (OfStr "other.json")) true loaded =
    (Return dataset, loaded).
Proof.
  destruct (cache_state_machine root failing_create (Some (OfStr "other.json")) loaded)
    as (_ & _ & _ & H & _).
  apply H; discriminate.
Defined.

(** An uncached load that fails leaves the cached dataset in place. *)
Lemma load_dataset_uncached_frame_witness :
  dataset_cache (snd (load_dataset root failing_create None false loaded)) = dataset /\
  fst (load_dataset root failing_create None true
         (snd (load_dataset root failing_create None false loaded))) = Return dataset.
Proof.
  destruct (load_dataset_uncached_frame root failing_create None None loaded) as (H1 & _ & H2).
  split; [exact H1|].
  rewrite H2; [reflexivity|discriminate].
Defined.

(** A provider that raises: the error surfaces, the working directory is back. *)
Lemma generate_all_formats_scoped_chdir_witness :
  cwd (os (snd (generate_all_formats faulting_main (OfStr "./output") fresh))) = ["home"] /\
  fst (generate_all_formats faulting_main (OfStr "./output") fresh) =
    Raise (ProviderError "RuntimeError").
Proof.
  split; [|reflexivity].
  apply (generate_all_formats_scoped_chdir faulting_main (OfStr "./output") fresh).
  intros s1 Hmk; vm_compute in Hmk; injection Hmk as <-; reflexivity.
Defined.

(** C7, as stated, fails: a provider that removes the directories
    leaves [generate_all_formats] no way back, and the working directory
    stays the output directory. *)
Lemma working_directory_not_restored :
  ~ (forall (main : os_state -> (string + unit) * os_state)
            (output_dir : pathlike) (w : world),
        cwd (os (snd (generate_all_formats main output_dir w))) = cwd (os w)).
Proof.
  intros H.
  specialize (H wiping_main (OfStr "output") fresh).
  vm_compute in H; discriminate H.
Qed.

(** The incidents linked to "ASI06": the first and the fourth. *)
Lemma get_incidents_by_asi_filter_witness :
  get_incidents_by_asi root (creating dataset) "asi06" fresh =
    (Return [nth 0 incidents PyNone; nth 3 incidents PyNone], loaded).
Proof.
  destruct (get_incidents_by_asi_filter root (creating dataset) "asi06" fresh)
    as (_ & _ & H).
  destruct (H loaded incidents eq_refl) as [Hres _].
  - repeat constructor; eexists; reflexivity.
  - exact Hres.
Defined.

(** After a load, [list_entry_ids] still returns the ten ids. *)
Lemma list_entry_ids_fresh_copy_witness :
  exists r, fst (list_entry_ids loaded) = Return r /\
            deref r (snd (list_entry_ids loaded)) = ASI_IDS.
Proof.
  destruct (list_entry_ids_fresh_copy root (creating dataset) loaded) as [r [Hr [Hd _]]].
  - eapply reach_step; [apply reach_import|apply step_load].
  - exists r; split; assumption.
Defined.

(** C4, as stated, fails: with two entries under "ASI01" the mapping
    holds the related entries of the last one, the accessor returns
    those of the first. *)
Lemma round_trip_fails_on_duplicate_ids :
  ~ (forall (root : Path) (create : os_state -> (string + pyval) * os_state)
            (id : string) (w w' : world) (es : list pyval),
        load_entries root create None w = (Return (PyList es), w') ->
        Forall is_entry es ->
        In id ASI_IDS ->
        Exists (has_id id) es ->
        round_trip root create id w).
Proof.
  intros H.
  specialize (H root (creating (dataset_of duplicated)) "ASI01" fresh
                (snd (load_entries root (creating (dataset_of duplicated)) None fresh))
                duplicated eq_refl).
  assert (R : round_trip root (creating (dataset_of duplicated)) "ASI01" fresh).
  { apply H.
    - repeat constructor; do 2 eexists; split; reflexivity.
    - simpl; tauto.
    - apply Exists_cons_hd; reflexivity. }
  unfold round_trip in R.
  apply (f_equal fst) in R; vm_compute in R.
  discriminate R.
Qed.

End AtWork.

(** ** Further properties of the accessor *)

(** *** [get_entry]: what a result tells *)

Lemma find_entry_sound (id : string) (es : list pyval) (e : pyval) :
  find_entry id es = Return e -> e <> PyNone ->
  exists pre post, es = pre ++ e :: post /\
                   Forall (other_id id) pre /\ has_id id e.
Proof.
  induction es as [|x es IH]; simpl.
  - intros [= <-] Hne; now destruct Hne.
  - destruct (Py.getitem x "id") as [v|err] eqn:Hx; simpl; [|discriminate].
    destruct (Py.eq_str v id) eqn:E.
    + intros [= <-] _; exists [], es; repeat split; [constructor|].
      apply eq_str_true in E; subst; exact Hx.
    + intros He Hne; destruct (IH He Hne) as [pre [post [-> [Hpre Hid]]]].
      exists (x :: pre), post; repeat split; [|assumption].
      constructor; [now exists v|assumption].
Qed.

Section GetEntrySound.

Context {cm : Str.case_map}.
Variable root : Path.
Variable create : os_state -> (string + pyval) * os_state.

(** An entry that [get_entry] returns is an entry of the loaded list,
    it carries the upper-cased id, and every entry before it carries
    another id. *)
Theorem get_entry_sound (s : string) (w w' : world) (es : list pyval) (e : pyval)
  (Hload : load_entries root create None w = (Return (PyList es), w'))
  (Hres : fst (get_entry root create s w) = Return e)
  (Hne : e <> PyNone) :
  exists pre post, es = pre ++ e :: post /\
                   Forall (other_id (Str.upper s)) pre /\
                   has_id (Str.upper s) e.
Proof.
  rewrite (get_entry_loaded _ _ _ _ _ _ Hload) in Hres; simpl in Hres.
  now apply find_entry_sound.
Qed.

End GetEntrySound.

Section GetEntrySoundAtWork.

Local Existing Instance Fixture.ascii_case.

(** "asi10" finds the last of the ten entries, after nine others. *)
Lemma get_entry_sound_witness :
  exists pre post, Fixture.entries = pre ++ nth 9 Fixture.entries PyNone :: post /\
                   Forall (other_id "ASI10") pre /\
                   has_id "ASI10" (nth 9 Fixture.entries PyNone).
Proof.
  assert (Hne : nth 9 Fixture.entries PyNone <> PyNone) by discriminate.
  exact (get_entry_sound Fixture.root (Fixture.creating Fixture.dataset) "asi10"
           Fixture.fresh Fixture.loaded Fixture.entries (nth 9 Fixture.entries PyNone)
           eq_refl eq_refl Hne).
Defined.

End GetEntrySoundAtWork.

(** *** [get_entry_by_title] *)

Lemma contains_empty (s : string) : Str.contains "" s = true.
Proof. destruct s; reflexivity. Qed.

Section ByTitle.

Context {cm : Str.case_map}.
Variable root : Path.
Variable create : os_state -> (string + pyval) * os_state.

Lemma find_by_title_first (q : string) (pre post : list pyval) (e : pyval) :
  Forall (title_misses q) pre -> title_hits q e ->
  find_by_title q (pre ++ e :: post) = Return e.
Proof.
  intros Hpre [t [Ht Hc]]; induction Hpre as [|x pre [u [Hu Hm]] _ IH]; simpl.
  - rewrite Ht; simpl; now rewrite Hc.
  - rewrite Hu; simpl; now rewrite Hm.
Qed.

Lemma find_by_title_absent (q : string) (es : list pyval) :
  Forall (title_misses q) es -> find_by_title q es = Return PyNone.
Proof.
  induction 1 as [|x es [u [Hu Hm]] _ IH]; simpl.
  - reflexivity.
  - rewrite Hu; simpl; now rewrite Hm.
Qed.

Lemma find_by_title_stops (q : string) (pre post : list pyval) (e : pyval) (err : exn) :
  Forall (title_misses q) pre ->
  Py.bind (Py.getitem e "title") str_lower = Raise err ->
  find_by_title q (pre ++ e :: post) = Raise err.
Proof.
  intros Hpre He; induction Hpre as [|x pre [u [Hu Hm]] _ IH]; simpl.
  - destruct (Py.getitem e "title") as [v|err'] eqn:Hv; simpl in *.
    + now rewrite He.
    + now injection He as ->.
  - rewrite Hu; simpl; now rewrite Hm.
Qed.

Lemma get_entry_by_title_loaded (t : string) (w w' : world) (es : list pyval) :
  load_entries root create None w = (Return (PyList es), w') ->
  get_entry_by_title root create t w = (find_by_title (Str.lower t) es, w').
Proof.
  intros Hload; unfold get_entry_by_title.
  now rewrite (bindM_return _ _ _ _ _ Hload).
Qed.

(** [get_entry_by_title] lower-cases the query, so that "Goal HIJACK"
    is "goal hijack", and returns the first entry of the loaded list
    whose title, lower-cased, holds it, and [None] when no title
    does. *)
Theorem get_entry_by_title_first_match (t : string) (w w' : world) (es : list pyval)
  (Hload : load_entries root create None w = (Return (PyList es), w')) :
  get_entry_by_title root create (Str.lower t) w = get_entry_by_title root create t w /\
  get_entry_by_title root create "Goal HIJACK" w =
    get_entry_by_title root create "goal hijack" w /\
  (forall pre e post,
      es = pre ++ e :: post ->
      Forall (title_misses (Str.lower t)) pre -> title_hits (Str.lower t) e ->
      get_entry_by_title root create t w = (Return e, w')) /\
  (Forall (title_misses (Str.lower t)) es ->
   get_entry_by_title root create t w = (Return PyNone, w')).
Proof.
  split; [unfold get_entry_by_title; now rewrite lower_idempotent|].
  split.
  { unfold get_entry_by_title.
    now rewrite !Str.lower_ascii_text by reflexivity. }
  rewrite (get_entry_by_title_loaded _ _ _ _ Hload).
  split.
  - intros pre e post -> Hpre He; now rewrite find_by_title_first.
  - intros Hall; now rewrite find_by_title_absent.
Qed.

(** The empty query is held by every title: [get_entry_by_title("")]
    returns the first entry of the list. *)
Theorem get_entry_by_title_empty_query (w w' : world) (e : pyval) (rest : list pyval)
  (t : string)
  (Hload : load_entries root create None w = (Return (PyList (e :: rest)), w'))
  (Ht : Py.getitem e "title" = Return (PyStr t)) :
  get_entry_by_title root create "" w = (Return e, w').
Proof.
  rewrite (get_entry_by_title_loaded _ _ _ _ Hload).
  rewrite Str.lower_ascii_text by reflexivity.
  simpl; rewrite Ht; simpl.
  now rewrite contains_empty.
Qed.

(** When the search reaches, before any match, an entry without a
    title, [get_entry_by_title] raises [KeyError]; when it reaches one
    whose title is not a string, [AttributeError]: the entries behind it
    are not looked at. *)
Theorem get_entry_by_title_bad_title (t : string) (w w' : world)
  (pre post : list pyval) (e : pyval)
  (Hload : load_entries root create None w = (Return (PyList (pre ++ e :: post)), w'))
  (Hpre : Forall (title_misses (Str.lower t)) pre) :
  (forall items, e = PyDict items -> Py.lookup "title" items = None ->
                 get_entry_by_title root create t w = (Raise (KeyError "title"), w')) /\
  (forall v, Py.getitem e "title" = Return v -> (forall u, v <> PyStr u) ->
             get_entry_by_title root create t w = (Raise AttributeError, w')).
Proof.
  rewrite (get_entry_by_title_loaded _ _ _ _ Hload).
  split.
  - intros items -> Hnone.
    rewrite (find_by_title_stops _ _ _ _ (KeyError "title") Hpre); [reflexivity|].
    simpl; now rewrite Hnone.
  - intros v Hv Hns.
    rewrite (find_by_title_stops _ _ _ _ AttributeError Hpre); [reflexivity|].
    rewrite Hv; simpl.
    destruct v; try reflexivity.
    now destruct (Hns s).
Qed.

End ByTitle.

Section ByTitleAtWork.

Local Existing Instance Fixture.ascii_case.

(** "POISON" finds the sixth entry, "Memory & Context Poisoning". *)
Lemma get_entry_by_title_first_match_witness :
  get_entry_by_title Fixture.root (Fixture.creating Fixture.dataset) "POISON" Fixture.fresh =
    (Return (nth 5 Fixture.entries PyNone), Fixture.loaded).
Proof.
  destruct (get_entry_by_title_first_match Fixture.root (Fixture.creating Fixture.dataset)
              "POISON" Fixture.fresh Fixture.loaded Fixture.entries eq_refl)
    as (_ & _ & H & _).
  apply (H (firstn 5 Fixture.entries) _ (skipn 6 Fixture.entries)).
  - reflexivity.
  - repeat constructor; eexists; split; reflexivity.
  - eexists; split; reflexivity.
Defined.

(** The empty query on the ten entries: the first one. *)
Lemma get_entry_by_title_empty_query_witness :
  get_entry_by_title Fixture.root (Fixture.creating Fixture.dataset) "" Fixture.fresh =
    (Return (hd PyNone Fixture.entries), Fixture.loaded).
Proof.
  apply (get_entry_by_title_empty_query Fixture.root (Fixture.creating Fixture.dataset)
           Fixture.fresh Fixture.loaded _ (tl Fixture.entries) "Agent Goal Hijack");
    reflexivity.
Defined.

(** An entry whose title is [None], after one that does not match. *)
Lemma get_entry_by_title_bad_title_witness :
  fst (get_entry_by_title Fixture.root
         (Fixture.creating
            (Fixture.dataset_of
               [hd PyNone Fixture.entries;
                PyDict [("id", PyStr "ASI02"); ("title", PyNone)];
                nth 9 Fixture.entries PyNone]))
         "rogue" Fixture.fresh) = Raise AttributeError.
Proof.
  pose proof (get_entry_by_title_bad_title Fixture.root
         (Fixture.creating
            (Fixture.dataset_of
               [hd PyNone Fixture.entries;
                PyDict [("id", PyStr "ASI02"); ("title", PyNone)];
                nth 9 Fixture.entries PyNone]))
         "rogue" Fixture.fresh _
         [hd PyNone Fixture.entries] [nth 9 Fixture.entries PyNone]
         (PyDict [("id", PyStr "ASI02"); ("title", PyNone)]) eq_refl) as H.
  destruct H as [_ H].
  - repeat constructor; eexists; split; reflexivity.
  - rewrite (H PyNone); [reflexivity|reflexivity|discriminate].
Defined.

End ByTitleAtWork.

(** *** The dictionaries built from the entries *)

Lemma build_mapping_by (es : list pyval) :
  forall acc, build_mapping es acc = build_by "related_llm_entries" es acc.
Proof.
  induction es as [|x es IH]; intros acc; simpl; [reflexivity|].
  destruct (Py.getitem x "id") as [k|]; simpl; [|reflexivity].
  destruct (Py.getitem x "related_llm_entries") as [v|]; simpl; [|reflexivity].
  destruct (Py.hashable k); [apply IH|reflexivity].
Qed.

Lemma build_titles_by (es : list pyval) :
  forall acc, build_titles es acc = build_by "title" es acc.
Proof.
  induction es as [|x es IH]; intros acc; simpl; [reflexivity|].
  destruct (Py.getitem x "id") as [k|]; simpl; [|reflexivity].
  destruct (Py.getitem x "title") as [v|]; simpl; [|reflexivity].
  destruct (Py.hashable k); [apply IH|reflexivity].
Qed.

Lemma build_by_app (field : string) (l1 l2 : list pyval) :
  forall acc, build_by field (l1 ++ l2) acc =
              Py.bind (build_by field l1 acc) (build_by field l2).
Proof.
  induction l1 as [|x l1 IH]; intros acc; simpl; [reflexivity|].
  destruct (Py.getitem x "id") as [k|]; simpl; [|reflexivity].
  destruct (Py.getitem x field) as [v|]; simpl; [|reflexivity].
  destruct (Py.hashable k); [apply IH|reflexivity].
Qed.

Lemma build_by_total (field : string) (es : list pyval) :
  Forall (has_field field) es ->
  forall acc, exists d, build_by field es acc = Return d.
Proof.
  induction 1 as [|x es [i [v [Hi Hv]]] _ IH]; intros acc; simpl.
  - now exists acc.
  - rewrite Hi, Hv; simpl; apply IH.
Qed.

Lemma build_by_others (field id : string) (es : list pyval) :
  Forall (has_field field) es -> Forall (other_id id) es ->
  forall acc, exists d, build_by field es acc = Return d /\
                        Py.dict_getitem d id = Py.dict_getitem acc id.
Proof.
  induction 1 as [|x es [i [v [Hi Hv]]] _ IH]; intros Hother acc.
  - now exists acc.
  - inversion Hother as [|? ? [u [Hu Hne]] Hos]; subst.
    rewrite Hi in Hu; injection Hu as <-.
    destruct (IH Hos (Py.setitem (PyStr i) v acc)) as [d [Hd Hget]].
    exists d; simpl; rewrite Hi, Hv; simpl; split; [assumption|].
    rewrite Hget; apply dict_getitem_setitem_other.
    intros ->; simpl in Hne; rewrite String.eqb_refl in Hne; discriminate.
Qed.

Lemma build_by_last (field id : string) (pre post : list pyval) (e v : pyval) :
  Forall (has_field field) pre ->
  has_id id e -> Py.getitem e field = Return v ->
  Forall (has_field field) post -> Forall (other_id id) post ->
  forall acc, exists d, build_by field (pre ++ e :: post) acc = Return d /\
                        Py.dict_getitem d id = Return v.
Proof.
  intros Hpre He Hv Hpost Hother acc.
  destruct (build_by_total field pre Hpre acc) as [d1 Hd1].
  destruct (build_by_others field id post Hpost Hother (Py.setitem (PyStr id) v d1))
    as [d [Hd Hget]].
  exists d; rewrite build_by_app, Hd1; simpl.
  unfold has_id in He; rewrite He, Hv; simpl; split; [assumption|].
  now rewrite Hget, dict_getitem_setitem_same.
Qed.

Section Comprehensions.

Context {cm : Str.case_map}.
Variable root : Path.
Variable create : os_state -> (string + pyval) * os_state.

Lemma list_entry_titles_loaded (w w' : world) (es : list pyval) :
  load_entries root create None w = (Return (PyList es), w') ->
  list_entry_titles root create w = (build_by "title" es [], w').
Proof.
  intros Hload; unfold list_entry_titles.
  rewrite (bindM_return _ _ _ _ _ Hload); unfold lift; simpl.
  now rewrite build_titles_by.
Qed.

Lemma get_asi_to_llm_mapping_loaded (w w' : world) (es : list pyval) :
  load_entries root create None w = (Return (PyList es), w') ->
  get_asi_to_llm_mapping root create w = (build_by "related_llm_entries" es [], w').
Proof.
  intros Hload; unfold get_asi_to_llm_mapping.
  rewrite (bindM_return _ _ _ _ _ Hload); unfold lift; simpl.
  now rewrite build_mapping_by.
Qed.

Lemma title_at_last (w w' : world) (id : string) (pre post : list pyval) (e v : pyval) :
  load_entries root create None w = (Return (PyList (pre ++ e :: post)), w') ->
  Forall (has_field "title") (pre ++ e :: post) ->
  has_id id e -> Py.getitem e "title" = Return v ->
  Forall (other_id id) post ->
  title_at root create id w = (Return v, w').
Proof.
  intros Hload Hwf He Hv Hother; unfold title_at.
  apply Forall_app in Hwf as [Hwpre Hwrest].
  inversion Hwrest as [|? ? _ Hwpost]; subst.
  destruct (build_by_last "title" id pre post e v Hwpre He Hv Hwpost Hother [])
    as [d [Hd Hget]].
  rewrite (bindM_return _ _ w w' d).
  - unfold lift; now rewrite Hget.
  - now rewrite (list_entry_titles_loaded _ _ _ Hload), Hd.
Qed.

(** In the dictionary of [list_entry_titles], an id has the title of
    the last entry of the list that carries it, and an id that no entry
    carries is not a key. *)
Theorem list_entry_titles_last_wins (w w' : world) (es : list pyval)
  (Hload : load_entries root create None w = (Return (PyList es), w'))
  (Hwf : Forall (has_field "title") es) :
  (forall id pre e post v,
      es = pre ++ e :: post ->
      has_id id e -> Py.getitem e "title" = Return v ->
      Forall (other_id id) post ->
      title_at root create id w = (Return v, w')) /\
  (forall id, Forall (other_id id) es ->
              title_at root create id w = (Raise (KeyError id), w')).
Proof.
  split.
  - intros id pre e post v -> He Hv Hother.
    now apply title_at_last with pre post e.
  - intros id Hother; unfold title_at.
    destruct (build_by_others "title" id es Hwf Hother []) as [d [Hd Hget]].
    rewrite (bindM_return _ _ w w' d).
    + unfold lift; now rewrite Hget.
    + now rewrite (list_entry_titles_loaded _ _ _ Hload), Hd.
Qed.

(** In the dictionary of [get_asi_to_llm_mapping], an id has the
    related entries of the last entry of the list that carries it, and
    an id that no entry carries is not a key. *)
Theorem asi_to_llm_mapping_last_wins (w w' : world) (es : list pyval)
  (Hload : load_entries root create None w = (Return (PyList es), w'))
  (Hwf : Forall is_entry es) :
  (forall id pre e post v,
      es = pre ++ e :: post ->
      has_id id e -> Py.getitem e "related_llm_entries" = Return v ->
      Forall (other_id id) post ->
      mapping_at root create id w = (Return v, w')) /\
  (forall id, Forall (other_id id) es ->
              mapping_at root create id w = (Raise (KeyError id), w')).
Proof.
  unfold mapping_at; split.
  - intros id pre e post v -> He Hv Hother.
    apply Forall_app in Hwf as [Hwpre Hwrest].
    inversion Hwrest as [|? ? _ Hwpost]; subst.
    destruct (build_by_last "related_llm_entries" id pre post e v
                Hwpre He Hv Hwpost Hother []) as [d [Hd Hget]].
    rewrite (bindM_return _ _ w w' d).
    + unfold lift; now rewrite Hget.
    + now rewrite (get_asi_to_llm_mapping_loaded _ _ _ Hload), Hd.
  - intros id Hother.
    destruct (build_by_others "related_llm_entries" id es Hwf Hother [])
      as [d [Hd Hget]].
    rewrite (bindM_return _ _ w w' d).
    + unfold lift; now rewrite Hget.
    + now rewrite (get_asi_to_llm_mapping_loaded _ _ _ Hload), Hd.
Qed.

(** For an upper-case id that exactly one entry carries,
    [list_entry_titles()[id]] is [get_entry(id)["title"]]. *)
Theorem list_entry_titles_agree (id : string) (w w' : world)
  (pre post : list pyval) (e : pyval)
  (Hload : load_entries root create None w = (Return (PyList (pre ++ e :: post)), w'))
  (Hwf : Forall (has_field "title") (pre ++ e :: post))
  (Hup : Str.upper id = id)
  (Hpre : Forall (other_id id) pre)
  (He : has_id id e)
  (Hpost : Forall (other_id id) post) :
  title_at root create id w = title_of_entry root create id w /\
  title_of_entry root create id w = (Py.getitem e "title", w').
Proof.
  assert (Hr : title_of_entry root create id w = (Py.getitem e "title", w')).
  { unfold title_of_entry.
    assert (Hg : get_entry root create id w = (Return e, w')).
    { rewrite (get_entry_loaded _ _ _ _ _ _ Hload), Hup.
      now rewrite find_entry_first. }
    now rewrite (bindM_return _ _ _ _ _ Hg). }
  split; [|exact Hr].
  rewrite Hr.
  assert (Hv : exists v, Py.getitem e "title" = Return v).
  { pose proof Hwf as Hwf'.
    apply Forall_app in Hwf' as [_ Hwrest].
    inversion Hwrest as [|? ? [i [v [_ Hv]]] _]; subst; now exists v. }
  destruct Hv as [v Hv]; rewrite Hv.
  now apply title_at_last with pre post e.
Qed.

End Comprehensions.

(** With two entries under "ASI01", the titles' dictionary has the
    title of the second. *)
Lemma list_entry_titles_last_wins_witness :
  fst (title_at Fixture.root
         (Fixture.creating
            (Fixture.dataset_of
               [Fixture.entry "ASI01" "First" []; Fixture.entry "ASI01" "Second" []]))
         "ASI01" Fixture.fresh) = Return (PyStr "Second").
Proof.
  destruct (list_entry_titles_last_wins Fixture.root
         (Fixture.creating
            (Fixture.dataset_of
               [Fixture.entry "ASI01" "First" []; Fixture.entry "ASI01" "Second" []]))
         Fixture.fresh _
         [Fixture.entry "ASI01" "First" []; Fixture.entry "ASI01" "Second" []]
         eq_refl) as [H _].
  - repeat constructor; do 2 eexists; split; reflexivity.
  - rewrite (H "ASI01" [Fixture.entry "ASI01" "First" []]
               (Fixture.entry "ASI01" "Second" []) [] (PyStr "Second"));
      try reflexivity.
    constructor.
Defined.

(** With the two entries of [Fixture.duplicated], the mapping has the
    related entries of the second. *)
Lemma asi_to_llm_mapping_last_wins_witness :
  fst (mapping_at Fixture.root (Fixture.creating (Fixture.dataset_of Fixture.duplicated))
         "ASI01" Fixture.fresh) =
  Return (Fixture.strs ["LLM06:2025 Excessive Agency"]).
Proof.
  destruct (asi_to_llm_mapping_last_wins Fixture.root
              (Fixture.creating (Fixture.dataset_of Fixture.duplicated))
              Fixture.fresh _ Fixture.duplicated eq_refl) as [H _].
  - repeat constructor; do 2 eexists; split; reflexivity.
  - rewrite (H "ASI01" [hd PyNone Fixture.duplicated]
               (nth 1 Fixture.duplicated PyNone) []
               (Fixture.strs ["LLM06:2025 Excessive Agency"]));
      try reflexivity.
    constructor.
Defined.

Section TitlesAtWork.

Local Existing Instance Fixture.ascii_case.

(** The title of "ASI02" on the ten entries, by both ways. *)
Lemma list_entry_titles_agree_witness :
  title_at Fixture.root (Fixture.creating Fixture.dataset) "ASI02" Fixture.fresh =
  title_of_entry Fixture.root (Fixture.creating Fixture.dataset) "ASI02" Fixture.fresh.
Proof.
  apply (list_entry_titles_agree Fixture.root (Fixture.creating Fixture.dataset) "ASI02"
           Fixture.fresh Fixture.loaded
           [hd PyNone Fixture.entries] (skipn 2 Fixture.entries)
           (nth 1 Fixture.entries PyNone)).
  - reflexivity.
  - repeat constructor; do 2 eexists; split; reflexivity.
  - reflexivity.
  - repeat constructor; eexists; split; reflexivity.
  - reflexivity.
  - repeat constructor; eexists; split; reflexivity.
Defined.

End TitlesAtWork.

(** *** Loading and the cache *)

Section Loading.

Variable root : Path.
Variable create : os_state -> (string + pyval) * os_state.

Lemma load_dataset_fills (fp : option pathlike) (w w1 : world) (d : pyval) :
  load_dataset root create fp true w = (Return d, w1) ->
  dataset_cache w1 = d.
Proof.
  intros H.
  destruct (negb (is_none (dataset_cache w))) eqn:E.
  - assert (Hc : dataset_cache w <> PyNone) by (intros Hn; rewrite Hn in E; discriminate).
    rewrite (load_dataset_hit root create fp w Hc) in H.
    now injection H as <- <-.
  - destruct (load_dataset_miss root create fp true w E) as [Hr [_ [_ Hc]]].
    rewrite H in Hr, Hc; simpl in Hr, Hc.
    now rewrite <- Hr in Hc.
Qed.

(** Once [load_dataset] has returned a dataset, every later call with
    [use_cache] returns that dataset, for any path, and leaves the state
    as it is: the files are not looked at again. *)
Theorem load_dataset_then_cached (fp fp' : option pathlike) (w w1 : world) (d : pyval)
  (Hload : load_dataset root create fp true w = (Return d, w1))
  (Hd : d <> PyNone) :
  load_dataset root create fp' true w1 = (Return d, w1).
Proof.
  pose proof (load_dataset_fills _ _ _ _ Hload) as Hc.
  rewrite <- Hc at 1; apply load_dataset_hit; now rewrite Hc.
Qed.

(** Once [load_entries()] has returned, it keeps returning the same
    value and changes nothing. *)
Theorem load_entries_stable (w w1 : world) (es : pyval)
  (Hload : load_entries root create None w = (Return es, w1)) :
  load_entries root create None w1 = (Return es, w1).
Proof.
  unfold load_entries, bindM, lift in *.
  destruct (load_dataset root create None true w) as [[d|e] w2] eqn:E; [|discriminate].
  destruct (Py.getitem d "entries") as [v|e] eqn:Ev; [|discriminate].
  injection Hload as <- <-.
  assert (Hd : d <> PyNone) by (intros ->; discriminate).
  pose proof (load_dataset_fills _ _ _ _ E) as Hc.
  rewrite (load_dataset_hit root create None w2) by now rewrite Hc.
  now rewrite Hc, Ev.
Qed.

(** A call of [load_dataset] that raises has cached nothing: the cache
    and the list objects are as they were, and the next call, made in
    the same way, runs the load path again. *)
Theorem load_dataset_failure (fp fp' : option pathlike) (uc : bool) (w : world) (e : exn)
  (Hfail : fst (load_dataset root create fp uc w) = Raise e) :
  let w1 := snd (load_dataset root create fp uc w) in
  dataset_cache w1 = dataset_cache w /\
  objects w1 = objects w /\
  load_path_result root create fp (os w) = Raise e /\
  fst (load_dataset root create fp' uc w1) = load_path_result root create fp' (os w1) /\
  io_log (snd (load_dataset root create fp' uc w1)) =
    load_path_event root fp' (os w1) :: load_path_event root fp (os w) :: io_log w.
Proof.
  intros w1.
  destruct (uc && negb (is_none (dataset_cache w))) eqn:E.
  - unfold load_dataset, bindM, read_cache, ret in Hfail; rewrite E in Hfail.
    discriminate.
  - destruct (load_dataset_miss root create fp uc w E) as [Hr [Hl [Ho Hc]]].
    rewrite Hfail in Hr; rewrite <- Hr in Hc.
    fold w1 in Hl, Ho, Hc.
    assert (E1 : uc && negb (is_none (dataset_cache w1)) = false) by now rewrite Hc.
    destruct (load_dataset_miss root create fp' uc w1 E1) as [Hr1 [Hl1 _]].
    repeat split; try assumption; [now symmetry|].
    now rewrite Hl1, Hl.
Qed.


(** With a path, [load_entries] and [load_mappings] neither read the
    cache nor write it: the file is opened at every call, the result is
    the same whatever is cached, and the cache is left as it was. *)
Theorem explicit_path_bypasses_cache (f : pathlike) (c : pyval) (w : world) :
  fst (load_entries root create (Some f) (set_cache c w)) =
    fst (load_entries root create (Some f) w) /\
  fst (load_mappings root create (Some f) (set_cache c w)) =
    fst (load_mappings root create (Some f) w) /\
  dataset_cache (snd (load_entries root create (Some f) w)) = dataset_cache w /\
  dataset_cache (snd (load_mappings root create (Some f) w)) = dataset_cache w /\
  io_log (snd (load_entries root create (Some f) w)) =
    Opened (Os.locate (os w) (to_Path f)) :: io_log w /\
  io_log (snd (load_mappings root create (Some f) w)) =
    Opened (Os.locate (os w) (to_Path f)) :: io_log w.
Proof.
  rewrite !load_entries_from_file.
  repeat split.
Qed.

(** A dataset file that holds [null]: [load_dataset] returns [None] and
    the cache stays empty, so the next call reads the file again. *)
Theorem null_dataset_not_cached (fp : option pathlike) (w : world)
  (Hempty : dataset_cache w = PyNone)
  (Hnull : load_path_result root create fp (os w) = Return PyNone) :
  let w1 := snd (load_dataset root create fp true w) in
  fst (load_dataset root create fp true w) = Return PyNone /\
  dataset_cache w1 = PyNone /\
  io_log (snd (load_dataset root create fp true w1)) =
    load_path_event root fp (os w1) :: load_path_event root fp (os w) :: io_log w.
Proof.
  intros w1.
  destruct (load_dataset_miss root create fp true w) as [Hr [Hl [_ Hc]]];
    [now rewrite Hempty|].
  rewrite Hnull in Hc, Hr.
  split; [exact Hr|split; [exact Hc|]].
  destruct (load_dataset_miss root create fp true w1) as [_ [Hl1 _]].
  - unfold w1; now rewrite Hc.
  - rewrite Hl1; unfold w1 at 2; now rewrite Hl.
Qed.

End Loading.

(** *** Calls that change nothing once a dataset is cached *)

Lemma read_only_bind {A B} (m : M A) (k : A -> M B) :
  read_only m -> (forall a, read_only (k a)) -> read_only (bindM m k).
Proof.
  intros Hm Hk w Hc; unfold bindM.
  specialize (Hm w Hc).
  destruct (m w) as [[a|e] w1]; simpl in Hm; subst w1.
  - now apply Hk.
  - reflexivity.
Qed.

Lemma read_only_lift {A} (r : outcome A) : read_only (lift r).
Proof. now intros w _. Qed.

Section ReadOnly.

Context {cm : Str.case_map}.
Variable root : Path.
Variable create : os_state -> (string + pyval) * os_state.

Lemma read_only_load_dataset (fp : option pathlike) :
  read_only (load_dataset root create fp true).
Proof. intros w Hc; now rewrite load_dataset_hit. Qed.

Lemma read_only_load_entries : read_only (load_entries root create None).
Proof.
  apply read_only_bind; [apply read_only_load_dataset|intros; apply read_only_lift].
Qed.

Lemma read_only_get_entry (s : string) : read_only (get_entry root create s).
Proof.
  apply read_only_bind; [apply read_only_load_entries|intros; apply read_only_lift].
Qed.

Ltac read_only_steps :=
  repeat first [ apply read_only_load_dataset
               | apply read_only_load_entries
               | apply read_only_get_entry
               | apply read_only_lift
               | (apply read_only_bind; [|intros ?a]) ].

(** With a dataset in the cache, the accessors read it and leave the
    state of the process alone, cache, files and record of load-path
    work included: none of them opens a file or calls the provider. *)
Theorem accessors_read_only (s t component_type : string) (data : pyval)
  (fp : option pathlike) :
  read_only (load_dataset root create fp true) /\
  read_only (load_entries root create None) /\
  read_only (load_mappings root create None) /\
  read_only (get_entry root create s) /\
  read_only (get_entry_by_title root create t) /\
  read_only (list_entry_titles root create) /\
  read_only (get_threats_for_component root create component_type data) /\
  read_only (get_mitigations root create s) /\
  read_only (get_attack_scenarios root create s) /\
  read_only (get_related_llm_entries root create s) /\
  read_only (get_asi_to_llm_mapping root create) /\
  read_only (get_nhi_mappings root create) /\
  read_only (get_incidents root create) /\
  read_only (get_incidents_by_asi root create s).
Proof.
  repeat split; unfold get_entry_by_title, list_entry_titles, get_asi_to_llm_mapping,
    get_nhi_mappings, get_incidents_by_asi, get_incidents, load_mappings,
    get_mitigations, get_attack_scenarios, get_related_llm_entries;
    read_only_steps.
  - unfold get_threats_for_component.
    destruct (component_lookup _ _); [|now intros w _].
    read_only_steps.
    destruct (is_none data); [apply read_only_load_dataset|now intros w _].
  - destruct (is_none a); [now intros w _|apply read_only_lift].
  - destruct (is_none a); [now intros w _|apply read_only_lift].
  - destruct (is_none a); [now intros w _|apply read_only_lift].
Qed.

(** Given a dataset, [get_threats_for_component] works on it alone: the
    state does not change and has no part in the result. *)
Theorem get_threats_on_given_data (component_type : string) (data : pyval) (w w0 : world)
  (Hdata : data <> PyNone) :
  get_threats_for_component root create component_type data w =
    (fst (get_threats_for_component root create component_type data w0), w).
Proof.
  unfold get_threats_for_component.
  destruct (component_lookup _ _); [|reflexivity].
  assert (is_none data = false) as -> by (destruct data; try reflexivity; now destruct Hdata).
  unfold bindM, ret, lift.
  destruct (Py.getitem data "entries"); reflexivity.
Qed.

(** On success the three accessors do not depend on the case of the
    id; on failure the error of each names the id as the caller wrote
    it, not its upper-case form. *)
Theorem accessors_case (s : string) (w : world) :
  (forall e, fst (get_entry root create s w) = Return e -> e <> PyNone ->
     get_mitigations root create s w = get_mitigations root create (Str.upper s) w /\
     get_attack_scenarios root create s w =
       get_attack_scenarios root create (Str.upper s) w /\
     get_related_llm_entries root create s w =
       get_related_llm_entries root create (Str.upper s) w) /\
  (fst (get_entry root create s w) = Return PyNone ->
     fst (get_mitigations root create s w) = Raise (entry_not_found s) /\
     fst (get_attack_scenarios root create s w) = Raise (entry_not_found s) /\
     fst (get_related_llm_entries root create s w) = Raise (entry_not_found s) /\
     fst (get_mitigations root create (Str.upper s) w) =
       Raise (entry_not_found (Str.upper s)) /\
     fst (get_attack_scenarios root create (Str.upper s) w) =
       Raise (entry_not_found (Str.upper s)) /\
     fst (get_related_llm_entries root create (Str.upper s) w) =
       Raise (entry_not_found (Str.upper s))).
Proof.
  assert (Hup : get_entry root create (Str.upper s) w = get_entry root create s w)
    by (unfold get_entry; now rewrite upper_idempotent).
  unfold get_mitigations, get_attack_scenarios, get_related_llm_entries, bindM.
  rewrite Hup.
  destruct (get_entry root create s w) as [[entry|err] w1]; simpl.
  - split.
    + intros e [= <-] Hne.
      assert (is_none entry = false) as ->
          by (destruct entry; try reflexivity; now destruct Hne).
      repeat split.
    + intros [= ->]; repeat split.
  - split; [discriminate|discriminate].
Qed.

(** [load_mappings()["nhi_mappings"]["mappings"]] is
    [get_nhi_mappings()] when the dataset has the [mappings] table;
    without that table [load_mappings()] fails on it, whatever else the
    dataset holds. *)
Theorem load_mappings_nhi_agree (w w1 : world) (d : pyval)
  (Hload : load_dataset root create None true w = (Return d, w1)) :
  (forall m, Py.getitem d "mappings" = Return m ->
             nhi_of_mappings root create w = get_nhi_mappings root create w) /\
  (forall e, Py.getitem d "mappings" = Raise e ->
             load_mappings root create None w = (Raise e, w1)).
Proof.
  unfold nhi_of_mappings, get_nhi_mappings, load_mappings, bindM, lift, ret.
  rewrite Hload; split.
  - intros m ->.
    destruct (Py.getitem d "nhi_mappings") as [n|e]; reflexivity.
  - now intros e ->.
Qed.

End ReadOnly.

(** *** The table of components *)

Section ComponentTable.

Context {cm : Str.case_map}.

(** Every key of [COMPONENT_THREAT_MAP] is accepted by
    [get_threats_for_component] in any letter case, and its subset is
    not empty, has no repetition and holds canonical ids only; every
    canonical id is in the subset of some key. *)
Theorem component_table_sound :
  (forall key sub,
      In (key, sub) COMPONENT_THREAT_MAP ->
      component_lookup (Str.lower key) COMPONENT_THREAT_MAP = Some sub /\
      component_lookup (Str.lower (Str.upper key)) COMPONENT_THREAT_MAP = Some sub /\
      sub <> [] /\ NoDup sub /\ subset_of sub ASI_IDS) /\
  (forall id, In id ASI_IDS ->
              exists key sub, In (key, sub) COMPONENT_THREAT_MAP /\ In id sub).
Proof.
  split.
  - unfold COMPONENT_THREAT_MAP; simpl; intros key sub H.
    repeat (destruct H as [[= <- <-] | H];
            [ split; [|split; [|repeat split]];
              [ now rewrite Str.lower_ascii_text by reflexivity
              | now rewrite Str.upper_ascii_text, Str.lower_ascii_text by reflexivity
              | discriminate
              | repeat constructor; simpl; intuition discriminate
              | intros x Hx; simpl in *; intuition ] |]).
    contradiction.
  - unfold ASI_IDS; simpl; intros id H.
    repeat (destruct H as [<- | H];
            [ first
                [ exists "llm_agent", ["ASI01"; "ASI05"; "ASI06"; "ASI10"]; simpl; tauto
                | exists "tool_integration", ["ASI02"; "ASI04"]; simpl; tauto
                | exists "identity_system", ["ASI03"]; simpl; tauto
                | exists "multi_agent", ["ASI07"; "ASI08"]; simpl; tauto
                | exists "user_interface", ["ASI09"]; simpl; tauto ] |]).
    contradiction.
Qed.

End ComponentTable.

(** *** Threats and [get_entry] together *)

Lemma find_entry_unique (i : string) (es : list pyval) (e : pyval) :
  NoDup (ids_of es) -> Forall with_id es ->
  In e es -> has_id i e ->
  find_entry i es = Return e.
Proof.
  intros Hnd Hall; revert Hnd.
  induction Hall as [|x es [v Hv] _ IH]; intros Hnd Hin He; [inversion Hin|].
  simpl in Hnd; inversion Hnd as [|? ? Hnotin Hnd']; subst.
  simpl; rewrite Hv; simpl.
  destruct Hin as [<- | Hin].
  - unfold has_id in He; rewrite He in Hv; injection Hv as <-.
    simpl; now rewrite String.eqb_refl.
  - destruct (Py.eq_str v i) eqn:E; [|now apply IH].
    apply eq_str_true in E; subst v.
    exfalso; apply Hnotin.
    rewrite Hv, <- He; unfold ids_of.
    now apply (in_map (fun e => Py.getitem e "id")).
Qed.

Lemma id_among_In (sub : list string) (e : pyval) :
  id_among sub e = true -> exists i, In i sub /\ has_id i e.
Proof.
  unfold id_among, has_id.
  destruct (Py.getitem e "id") as [v|]; [|discriminate].
  unfold Py.in_strs; intros H.
  apply existsb_exists in H as [i [Hi Heq]].
  apply eq_str_true in Heq; subst; now exists i.
Qed.

Section ThreatsAndEntries.

Context {cm : Str.case_map}.
Variable root : Path.
Variable create : os_state -> (string + pyval) * os_state.

(** When the ids of the loaded entries are all different, each threat
    that [get_threats_for_component] returns for a component is the
    entry that [get_entry] returns for the threat's id. *)
Theorem threats_are_entries (component_type : string) (w w1 : world)
  (d : pyval) (es : list pyval) (sub : list string)
  (Hload : load_dataset root create None true w = (Return d, w1))
  (Hes : Py.getitem d "entries" = Return (PyList es))
  (Hids : Forall with_id es)
  (Hnd : NoDup (ids_of es))
  (Hsub : component_lookup (Str.lower component_type) COMPONENT_THREAT_MAP = Some sub) :
  exists threats,
    get_threats_for_component root create component_type PyNone w = (Return threats, w1) /\
    forall e, In e threats ->
              exists i, In i sub /\ has_id i e /\
                        get_entry root create i w = (Return e, w1).
Proof.
  exists (filter (id_among sub) es); split.
  - unfold get_threats_for_component; rewrite Hsub; simpl.
    rewrite (bindM_return _ _ _ _ _ Hload).
    unfold bindM, lift; rewrite Hes; simpl.
    now rewrite filter_by_id_filter.
  - intros e He; apply filter_In in He as [Hin Hamong].
    destruct (id_among_In _ _ Hamong) as [i [Hi Hid]].
    exists i; repeat split; try assumption.
    assert (Hle : load_entries root create None w = (Return (PyList es), w1)).
    { unfold load_entries; rewrite (bindM_return _ _ _ _ _ Hload).
      unfold lift; now rewrite Hes. }
    rewrite (get_entry_loaded _ _ _ _ _ _ Hle).
    assert (Hup : Str.upper i = i).
    { apply upper_canonical.
      apply component_lookup_In in Hsub.
      unfold COMPONENT_THREAT_MAP in Hsub; simpl in Hsub.
      repeat (destruct Hsub as [[= _ <-] | Hsub];
              [simpl in Hi; unfold ASI_IDS; simpl; intuition|]).
      contradiction. }
    rewrite Hup; now rewrite (find_entry_unique i es e).
Qed.

End ThreatsAndEntries.

(** *** Incidents that cannot be examined *)

Lemma queryable_selected (id : string) (x : pyval) :
  queryable x = true ->
  exists rel, Py.get x "related_asi" (PyList []) = Return rel /\
              Py.str_in id rel = Return (selected id x).
Proof.
  unfold queryable, selected; destruct x as [| | | | |items]; try discriminate; simpl.
  destruct (Py.lookup "related_asi" items) as [[| | | | |]|]; try discriminate;
    intros _; eexists; split; reflexivity.
Qed.

Lemma not_queryable_raises (id : string) (x : pyval) :
  queryable x = false ->
  Py.bind (Py.get x "related_asi" (PyList [])) (Py.str_in id) =
  Raise (match x with PyDict _ => TypeError | _ => AttributeError end).
Proof.
  unfold queryable; destruct x as [| | | | |items]; try reflexivity; simpl.
  destruct (Py.lookup "related_asi" items) as [[| | | | |]|]; try discriminate;
    reflexivity.
Qed.

Lemma filter_incidents_selected (id : string) (l : list pyval) :
  forallb queryable l = true ->
  filter_incidents id l = Return (filter (selected id) l).
Proof.
  induction l as [|x l IH]; simpl; [reflexivity|].
  intros H; apply andb_true_iff in H as [Hx Hl].
  destruct (queryable_selected id x Hx) as [rel [Hrel Hin]].
  rewrite Hrel; simpl; rewrite Hin; simpl; rewrite (IH Hl); simpl.
  now destruct (selected id x).
Qed.

Lemma filter_incidents_stops (id : string) (pre post : list pyval) (x : pyval) :
  forallb queryable pre = true -> queryable x = false ->
  filter_incidents id (pre ++ x :: post) =
  Raise (match x with PyDict _ => TypeError | _ => AttributeError end).
Proof.
  intros Hpre Hx; induction pre as [|y pre IH]; simpl.
  - pose proof (not_queryable_raises id x Hx) as H.
    destruct (Py.get x "related_asi" (PyList [])) as [rel|e]; simpl in *.
    + destruct (Py.str_in id rel); [discriminate|simpl; now injection H as ->].
    + now injection H as ->.
  - simpl in Hpre; apply andb_true_iff in Hpre as [Hy Hpre].
    destruct (queryable_selected id y Hy) as [rel [Hrel Hin]].
    rewrite Hrel; simpl; rewrite Hin; simpl; now rewrite (IH Hpre).
Qed.

Section IncidentsExamined.

Context {cm : Str.case_map}.
Variable root : Path.
Variable create : os_state -> (string + pyval) * os_state.

(** [get_incidents_by_asi] returns when every incident is a dictionary
    whose related ids, if any, are a list, a string or a dictionary; a
    string of related ids is searched for the id as a part of it.  The
    first incident of another kind makes the whole call raise:
    [AttributeError] when it is no dictionary, [TypeError] when its
    related ids are [None], a boolean or a number. *)
Theorem incidents_examined (s : string) (w w1 : world) (incidents : list pyval)
  (Hget : get_incidents root create w = (Return (PyList incidents), w1)) :
  (forallb queryable incidents = true ->
   get_incidents_by_asi root create s w =
     (Return (filter (selected (Str.upper s)) incidents), w1)) /\
  (forall pre x post,
      incidents = pre ++ x :: post ->
      forallb queryable pre = true -> queryable x = false ->
      get_incidents_by_asi root create s w =
        (Raise (match x with PyDict _ => TypeError | _ => AttributeError end), w1)) /\
  (forall items t,
      Py.lookup "related_asi" items = Some (PyStr t) ->
      selected (Str.upper s) (PyDict items) = Str.contains (Str.upper s) t).
Proof.
  unfold get_incidents_by_asi.
  rewrite (bindM_return _ _ _ _ _ Hget); unfold lift; simpl.
  split; [|split].
  - intros H; now rewrite filter_incidents_selected.
  - intros pre x post -> Hpre Hx; now rewrite filter_incidents_stops.
  - intros items t H; unfold selected; simpl; now rewrite H.
Qed.

End IncidentsExamined.

(** *** [generate_all_formats] and the rest of the state *)

Section GenerateFrame.

Variable main : os_state -> (string + unit) * os_state.

Lemma generate_all_formats_frame (output_dir : pathlike) (w : world) :
  dataset_cache (snd (generate_all_formats main output_dir w)) = dataset_cache w /\
  objects (snd (generate_all_formats main output_dir w)) = objects w.
Proof.
  unfold generate_all_formats, bindM, mkdir_p, chdir, getcwd, try_finally,
    run_parser_main, os_call, ret.
  destruct (Os.mkdir_p (to_Path output_dir) (os w)) as [[[]|e] s1]; simpl; [|now split].
  destruct (Os.chdir (to_Path output_dir) s1) as [[[]|e] s2]; simpl; [|now split].
  destruct (main s2) as [r s3]; simpl.
  destruct (Os.chdir (Os.getcwd s1) s3) as [[[]|e] s4]; simpl; [|now split].
  destruct (from_parser r); now split.
Qed.

(** [generate_all_formats] never touches the cache, on any outcome: a
    dataset cached before the files were generated is what
    [load_dataset] goes on returning. *)
Theorem generate_all_formats_keeps_cache (output_dir : pathlike) (w : world) :
  let w1 := snd (generate_all_formats main output_dir w) in
  dataset_cache w1 = dataset_cache w /\
  objects w1 = objects w /\
  (dataset_cache w <> PyNone ->
   forall root create fp,
     load_dataset root create fp true w1 = (Return (dataset_cache w), w1)).
Proof.
  intros w1.
  destruct (generate_all_formats_frame output_dir w) as [Hc Ho].
  split; [exact Hc|split; [exact Ho|]].
  intros Hcached root create fp.
  fold w1 in Hc; rewrite <- Hc.
  apply load_dataset_hit; now rewrite Hc.
Qed.

(** When a file stands where the output directory should be,
    [generate_all_formats] raises [FileExistsError] and nothing has
    happened: the provider has not run and the state is unchanged. *)
Theorem generate_all_formats_blocked (output_dir : pathlike) (w : world)
  (c : option pyval)
  (Hfile : fs (os w) (Os.locate (os w) (to_Path output_dir)) = Some (File c)) :
  generate_all_formats main output_dir w = (Raise FileExistsError, w).
Proof.
  unfold generate_all_formats, bindM, mkdir_p, os_call, Os.mkdir_p.
  rewrite Hfile.
  destruct w as [dc ob [cw f] lg]; reflexivity.
Qed.


End GenerateFrame.

(** *** The further properties at work *)

Section FurtherAtWork.

Local Existing Instance Fixture.ascii_case.

(** After the first load, another path and the same provider: the
    cached dataset. *)
Lemma load_dataset_then_cached_witness :
  load_dataset Fixture.root (Fixture.creating Fixture.dataset)
    (Some (OfStr "elsewhere.json")) true Fixture.loaded =
  (Return Fixture.dataset, Fixture.loaded).
Proof.
  apply (load_dataset_then_cached Fixture.root (Fixture.creating Fixture.dataset)
           None (Some (OfStr "elsewhere.json")) Fixture.fresh).
  - reflexivity.
  - discriminate.
Defined.

Lemma load_entries_stable_witness :
  load_entries Fixture.root (Fixture.creating Fixture.dataset) None Fixture.loaded =
  (Return (PyList Fixture.entries), Fixture.loaded).
Proof.
  apply (load_entries_stable Fixture.root (Fixture.creating Fixture.dataset) Fixture.fresh).
  reflexivity.
Defined.

(** The provider cannot be imported: the cache stays empty, and the
    next call tries the provider again. *)
Lemma load_dataset_failure_witness :
  dataset_cache (snd (load_dataset Fixture.root Fixture.failing_create None true
                        Fixture.fresh)) = PyNone /\
  fst (load_dataset Fixture.root Fixture.failing_create None true
         (snd (load_dataset Fixture.root Fixture.failing_create None true Fixture.fresh))) =
    Raise (ProviderError "ImportError").
Proof.
  destruct (load_dataset_failure Fixture.root Fixture.failing_create None None true
              Fixture.fresh (ProviderError "ImportError") eq_refl)
    as (H1 & _ & _ & H2 & _).
  split; [exact H1|exact H2].
Defined.


(** A file that holds [null]. *)
Lemma null_dataset_not_cached_witness :
  fst (load_dataset Fixture.root Fixture.failing_create (Some (OfStr "null.json")) true
         (initial_world (Fixture.disk [(["home"; "null.json"], Some PyNone)]))) =
  Return PyNone.
Proof.
  apply (null_dataset_not_cached Fixture.root Fixture.failing_create
           (Some (OfStr "null.json"))
           (initial_world (Fixture.disk [(["home"; "null.json"], Some PyNone)])));
    reflexivity.
Defined.

Lemma accessors_read_only_witness :
  snd (get_incidents_by_asi Fixture.root Fixture.failing_create "asi06" Fixture.loaded) =
  Fixture.loaded.
Proof.
  destruct (accessors_read_only Fixture.root Fixture.failing_create "asi06" "" "" PyNone None)
    as (_ & _ & _ & _ & _ & _ & _ & _ & _ & _ & _ & _ & _ & H).
  apply H; discriminate.
Defined.

Lemma get_threats_on_given_data_witness :
  get_threats_for_component Fixture.root Fixture.failing_create "rag_system"
    Fixture.dataset Fixture.fresh =
  (fst (get_threats_for_component Fixture.root Fixture.failing_create "rag_system"
          Fixture.dataset Fixture.loaded), Fixture.fresh).
Proof.
  apply (get_threats_on_given_data Fixture.root Fixture.failing_create "rag_system"
           Fixture.dataset Fixture.fresh Fixture.loaded).
  discriminate.
Defined.

Lemma accessors_case_witness :
  get_mitigations Fixture.root (Fixture.creating Fixture.dataset) "asi04" Fixture.fresh =
  get_mitigations Fixture.root (Fixture.creating Fixture.dataset) "ASI04" Fixture.fresh.
Proof.
  destruct (accessors_case Fixture.root (Fixture.creating Fixture.dataset) "asi04"
              Fixture.fresh) as [H _].
  apply (H (nth 3 Fixture.entries PyNone)); [reflexivity|discriminate].
Defined.

Lemma load_mappings_nhi_agree_witness :
  nhi_of_mappings Fixture.root (Fixture.creating Fixture.full_dataset) Fixture.fresh =
  get_nhi_mappings Fixture.root (Fixture.creating Fixture.full_dataset) Fixture.fresh.
Proof.
  destruct (load_mappings_nhi_agree Fixture.root (Fixture.creating Fixture.full_dataset)
              Fixture.fresh Fixture.loaded_full Fixture.full_dataset eq_refl) as [H _].
  apply (H (PyDict [("ASI01", Fixture.strs ["LLM01:2025 Prompt Injection"])])).
  reflexivity.
Defined.

Lemma threats_are_entries_witness :
  exists threats,
    get_threats_for_component Fixture.root (Fixture.creating Fixture.dataset)
      "Orchestrator" PyNone Fixture.fresh = (Return threats, Fixture.loaded) /\
    forall e, In e threats ->
      exists i, In i ["ASI01"; "ASI08"; "ASI10"] /\ has_id i e /\
                get_entry Fixture.root (Fixture.creating Fixture.dataset) i Fixture.fresh =
                  (Return e, Fixture.loaded).
Proof.
  apply (threats_are_entries Fixture.root (Fixture.creating Fixture.dataset)
           "Orchestrator" Fixture.fresh Fixture.loaded Fixture.dataset Fixture.entries).
  - reflexivity.
  - reflexivity.
  - repeat constructor; eexists; reflexivity.
  - repeat constructor; simpl; intuition discriminate.
  - reflexivity.
Defined.

(** An incident whose related ids are one string: part of an id
    selects it. *)
Lemma incidents_examined_witness :
  fst (get_incidents_by_asi Fixture.root
         (Fixture.creating
            (PyDict [("exploits_tracker",
                      PyDict [("incidents",
                               PyList [PyDict [("related_asi", PyStr "ASI01,ASI02")]])])]))
         "si0" Fixture.fresh) =
  Return [PyDict [("related_asi", PyStr "ASI01,ASI02")]].
Proof.
  destruct (incidents_examined Fixture.root
         (Fixture.creating
            (PyDict [("exploits_tracker",
                      PyDict [("incidents",
                               PyList [PyDict [("related_asi", PyStr "ASI01,ASI02")]])])]))
         "si0" Fixture.fresh _ [PyDict [("related_asi", PyStr "ASI01,ASI02")]] eq_refl)
    as [H _].
  rewrite H; reflexivity.
Defined.

Lemma generate_all_formats_keeps_cache_witness :
  load_dataset Fixture.root Fixture.failing_create None true
    (snd (generate_all_formats Fixture.idle_main (OfStr "out") Fixture.loaded)) =
  (Return Fixture.dataset,
   snd (generate_all_formats Fixture.idle_main (OfStr "out") Fixture.loaded)).
Proof.
  destruct (generate_all_formats_keeps_cache Fixture.idle_main (OfStr "out") Fixture.loaded)
    as (_ & _ & H).
  apply H; discriminate.
Defined.

Lemma generate_all_formats_blocked_witness :
  generate_all_formats Fixture.idle_main (OfStr "output")
    (initial_world Fixture.blocked_disk) =
  (Raise FileExistsError, initial_world Fixture.blocked_disk).
Proof.
  apply (generate_all_formats_blocked Fixture.idle_main (OfStr "output")
           (initial_world Fixture.blocked_disk) None).
  reflexivity.
Defined.


End FurtherAtWork.
